(** * WhatsApp Realtime Checker: a shallow embedding of the client code

    The development follows
    [src/examples/whatsapp_realtime_checker_javascript.js] (the browser
    class [WhatsAppRealtimeChecker], the two validation helpers and the two
    handlers of the page; in [Module Node], the lookup of the Node.js
    variant) and, in [Module Go], [Module Php] and [Module CSharp], the
    sibling clients [src/examples/whatsapp_realtime_checker_go.go],
    [src/examples/whatsapp_realtime_checker_php.php] and
    [src/examples/whatsapp_realtime_checker_csharp.cs] where they differ,
    with the example programs of the Go and PHP files.

    Modelling decisions.
    - Strings are [string] (bytes); a JavaScript string is read as its UTF-8
      bytes.  [toUpperCase] is the built-in on ASCII letters, which is what a
      two-letter country code consists of.
    - A value returned by [response.json()] is an object with the optional
      properties the client code reads ([status], [message], [transactionId],
      [pricingStrategy], [error]), each a string (or, for [message], an
      object with string properties); a property that is absent or [null] is
      [None].  JSON bodies of another shape are outside this model.
    - The remote endpoint is an arbitrary state machine [fetch] over an
      arbitrary type [World]: it may answer every call differently.
    - Awaited promises are sequenced in program order: an [async] method is a
      computation in the monad [M], which threads the world, collects the
      observable events (console output, network calls, timers) and
      propagates thrown errors.
    - [JSON.stringify], a built-in of the runtime, is a parameter. *)

From Stdlib Require Import String Ascii List ZArith Lia Bool.
From Stdlib Require Import Permutation DecimalString.
Import ListNotations.
Local Open Scope list_scope.
Local Open Scope string_scope.

(** ** JavaScript primitives used by the client *)

(** [a || b] on an optional string: [undefined], [null] and the empty string
    are falsy. *)
Definition truthy (v : option string) : bool :=
  match v with
  | Some s => negb (s =? "")
  | None => false
  end.

Definition or_else (v : option string) (d : string) : string :=
  match v with
  | Some s => if s =? "" then d else s
  | None => d
  end.

(** [x === 'lit'] for an optional string property. *)
Definition strict_eq (v : option string) (lit : string) : bool :=
  match v with
  | Some s => s =? lit
  | None => false
  end.

Definition is_lower (c : ascii) : bool :=
  (("a" <=? c) && (c <=? "z"))%char.

Definition upper_char (c : ascii) : ascii :=
  if is_lower c then ascii_of_nat (nat_of_ascii c - 32) else c.

(** [String.prototype.toUpperCase] on ASCII text. *)
Fixpoint toUpperCase (s : string) : string :=
  match s with
  | EmptyString => EmptyString
  | String c s' => String (upper_char c) (toUpperCase s')
  end.

(** Decimal rendering of an integer inside a template literal. *)
Definition Number_toString (z : Z) : string :=
  NilZero.string_of_int (Z.to_int z).

(** ** Data model *)

(** The thrown values: [Error], [TypeError], [SyntaxError] objects. *)
Record JsError := mkError { err_name : string; err_message : string }.

Inductive Completion (A : Type) : Type :=
| Return (a : A)
| Throw (e : JsError).
Arguments Return {A} a.
Arguments Throw {A} e.

(** One element of [numbersData]: [{ number, country, callback }]. *)
Record NumberData := mkData {
  in_number : string;
  in_country : string;
  in_callback : option string
}.

(** The [message] object of the envelope. *)
Record Message := mkMessage {
  msg_number : option string;
  msg_whatsapp : option string
}.

(** The object stored under [result]: the decoded envelope on success,
    [{ error: ... }] on failure. *)
Record ResultObj := mkResult {
  status : option string;
  message : option Message;
  pricingStrategy : option string;
  transactionId : option string;
  error : option string
}.

(** One element of the array returned by [checkMultipleNumbers]. *)
Record Outcome := mkOutcome {
  input : NumberData;
  result : ResultObj;
  success : bool
}.

Record Statistics := mkStats {
  total : Z;
  successful : Z;
  failed : Z;
  whatsappYes : Z;
  whatsappNo : Z
}.

(** ** The network boundary *)

Record HttpRequest := mkRequest {
  req_url : string;
  req_method : string;
  req_headers : list (string * string);
  req_body : string
}.

(** What [fetch] resolves to: the status line, the raw body, and what
    [response.json()] yields for that body (a value, or a thrown
    [SyntaxError]). *)
Record HttpResponse := mkResponse {
  res_status : Z;
  res_text : string;
  res_json : Completion ResultObj
}.

Definition ok (r : HttpResponse) : bool :=
  (200 <=? res_status r)%Z && (res_status r <=? 299)%Z.

Inductive FetchOutcome :=
| Rejected (e : JsError)
| Resolved (r : HttpResponse).

(** ** Observable events *)

Inductive Event :=
| ConsoleLog (text : string)
| ConsoleError (text : string) (thrown : option JsError)
| FetchCall (req : HttpRequest)
| SetTimeout (ms : Z).

(** ** [URLSearchParams]: the form-encoded payload *)

(** The entries of a [URLSearchParams] object, in insertion order. *)
Definition URLSearchParams := list (string * string).

Definition append (p : URLSearchParams) (name value : string) : URLSearchParams :=
  (p ++ [(name, value)])%list.

Definition is_digit (c : ascii) : bool :=
  (("0" <=? c) && (c <=? "9"))%char.

Definition is_alpha (c : ascii) : bool :=
  ((("a" <=? c) && (c <=? "z")) || (("A" <=? c) && (c <=? "Z")))%char.

(** Bytes the application/x-www-form-urlencoded serializer leaves as they
    are: ASCII alphanumerics and [*], [-], [.], [_]. *)
Definition form_safe (c : ascii) : bool :=
  is_digit c || is_alpha c ||
  (c =? "*")%char || (c =? "-")%char || (c =? ".")%char || (c =? "_")%char.

Definition hex_digit (n : nat) : ascii :=
  if (n <? 10)%nat then ascii_of_nat (48 + n) else ascii_of_nat (55 + n).

Definition percent_encode (c : ascii) : string :=
  if (c =? " ")%char then "+"
  else if form_safe c then String c EmptyString
  else String "%" (String (hex_digit (nat_of_ascii c / 16))
                  (String (hex_digit (nat_of_ascii c mod 16)) EmptyString)).

Fixpoint urlencode (s : string) : string :=
  match s with
  | EmptyString => EmptyString
  | String c s' => percent_encode c ++ urlencode s'
  end.

Definition encode_entry (e : string * string) : string :=
  urlencode (fst e) ++ "=" ++ urlencode (snd e).

(** [URLSearchParams.prototype.toString]. *)
Definition toString (p : URLSearchParams) : string :=
  String.concat "&" (map encode_entry p).

(** The inverse direction, as the receiving end reads a form body: split on
    [&], skip empty sequences, split each at its first [=], turn [+] into a
    space and percent-decode. *)
Fixpoint split (sep : ascii) (s : string) : list string :=
  match s with
  | EmptyString => [EmptyString]
  | String c s' =>
      if (c =? sep)%char then EmptyString :: split sep s'
      else match split sep s' with
           | h :: t => String c h :: t
           | [] => [String c EmptyString]
           end
  end.

Fixpoint cut (sep : ascii) (s : string) : string * string :=
  match s with
  | EmptyString => (EmptyString, EmptyString)
  | String c s' =>
      if (c =? sep)%char then (EmptyString, s')
      else let (a, b) := cut sep s' in (String c a, b)
  end.

Definition hex_value (c : ascii) : option nat :=
  if is_digit c then Some (nat_of_ascii c - 48)
  else if (("A" <=? c) && (c <=? "F"))%char then Some (nat_of_ascii c - 55)
  else if (("a" <=? c) && (c <=? "f"))%char then Some (nat_of_ascii c - 87)
  else None.

Fixpoint urldecode (s : string) : string :=
  match s with
  | EmptyString => EmptyString
  | String c s' =>
      if (c =? "+")%char then String " " (urldecode s')
      else if (c =? "%")%char then
        match s' with
        | String h (String l rest) =>
            match hex_value h, hex_value l with
            | Some a, Some b => String (ascii_of_nat (16 * a + b)) (urldecode rest)
            | _, _ => String c (urldecode s')
            end
        | _ => String c (urldecode s')
        end
      else String c (urldecode s')
  end.

Definition decode_entry (s : string) : string * string :=
  let (n, v) := cut "=" s in (urldecode n, urldecode v).

Definition parse_form (body : string) : URLSearchParams :=
  map decode_entry (filter (fun s => negb (s =? "")) (split "&" body)).

(** The first value a form stores under a name, if any. *)
Fixpoint field (p : URLSearchParams) (name : string) : option string :=
  match p with
  | [] => None
  | (n, v) :: p' => if n =? name then Some v else field p' name
  end.

Definition has_field (p : URLSearchParams) (name : string) : bool :=
  match field p name with Some _ => true | None => false end.

(** ** The computation monad: world, events, thrown errors *)

Section Client.

Variable World : Type.
Variable fetch : World -> HttpRequest -> FetchOutcome * World.

Record Run (A : Type) := mkRun {
  value : Completion A;
  final : World;
  trace : list Event
}.
Arguments mkRun {A}.
Arguments value {A}.
Arguments final {A}.
Arguments trace {A}.

Definition M (A : Type) : Type := World -> Run A.

Definition ret {A} (a : A) : M A := fun w => mkRun (Return a) w [].

Definition throw {A} (e : JsError) : M A := fun w => mkRun (Throw e) w [].

Definition bind {A B} (m : M A) (k : A -> M B) : M B := fun w =>
  let r := m w in
  match value r with
  | Return a =>
      let r' := k a (final r) in
      mkRun (value r') (final r') (trace r ++ trace r')
  | Throw e => mkRun (Throw e) (final r) (trace r)
  end.

(** [try { m } catch (e) { h e }]: what [m] did before it threw stays done. *)
Definition try_catch {A} (m : M A) (h : JsError -> M A) : M A := fun w =>
  let r := m w in
  match value r with
  | Return a => r
  | Throw e =>
      let r' := h e (final r) in
      mkRun (value r') (final r') (trace r ++ trace r')
  end.

Definition emit (e : Event) : M unit := fun w => mkRun (Return tt) w [e].

Definition when (b : bool) (m : M unit) : M unit := if b then m else ret tt.

Notation "x <- m ;; k" := (bind m (fun x => k))
  (at level 61, m at next level, right associativity).
Notation "m ;;; k" := (bind m (fun _ => k))
  (at level 61, right associativity).

(** [await fetch(url, init)]. *)
Definition await_fetch (req : HttpRequest) : M HttpResponse := fun w =>
  let (o, w') := fetch w req in
  match o with
  | Resolved r => mkRun (Return r) w' [FetchCall req]
  | Rejected e => mkRun (Throw e) w' [FetchCall req]
  end.

(** [await response.json()]. *)
Definition await_json (r : HttpResponse) : M ResultObj := fun w =>
  mkRun (res_json r) w [].

(** ** [class WhatsAppRealtimeChecker] *)

Record Checker := mkChecker { apiKey : string; baseUrl : string }.

Definition new_WhatsAppRealtimeChecker (key : string) : Checker :=
  mkChecker key "https://api.checknumber.ai/v1/realtime/whatsapp".

Variable this : Checker.

(** The [URLSearchParams] built at the top of [checkNumber]. *)
Definition form_data (number country : string) (callback : option string)
  : URLSearchParams :=
  let data := [] in
  let data := append data "number" number in
  let data := append data "country" (toUpperCase country) in
  match callback with
  | Some cb => if truthy callback then append data "callback" cb else data
  | None => data
  end.

Definition request_of (number country : string) (callback : option string)
  : HttpRequest :=
  mkRequest (baseUrl this) "POST"
    [("Content-Type", "application/x-www-form-urlencoded");
     ("X-API-Key", apiKey this)]
    (toString (form_data number country callback)).

Definition checkNumber (number country : string) (callback : option string)
  : M ResultObj :=
  try_catch
    (response <- await_fetch (request_of number country callback) ;;
     when (negb (ok response))
       (throw (mkError "Error"
          ("HTTP error! status: " ++ Number_toString (res_status response)))) ;;;
     await_json response)
    (fun error =>
       emit (ConsoleError "Error checking number:" (Some error)) ;;;
       throw error).

Definition sleep (ms : Z) : M unit := emit (SetTimeout ms).

Definition success_entry (data : NumberData) (r : ResultObj) : Outcome :=
  mkOutcome data r true.

Definition failure_entry (data : NumberData) (e : JsError) : Outcome :=
  mkOutcome data (mkResult None None None None (Some (err_message e))) false.

(** One iteration of the [for] loop of [checkMultipleNumbers]: the
    [try]/[catch] statement at index [i], with [n] for [numbersData.length],
    [data] for [numbersData[i]] and [results] for the array built so far. *)
Definition iteration (n : nat) (delay : Z) (i : nat) (data : NumberData)
    (results : list Outcome) : M (list Outcome) :=
  try_catch
    (emit (ConsoleLog
       ("Checking " ++ Number_toString (Z.of_nat i + 1) ++ "/" ++
        Number_toString (Z.of_nat n) ++ ": " ++ in_number data ++
        " (" ++ in_country data ++ ")")) ;;;
     r <- checkNumber (in_number data) (in_country data) (in_callback data) ;;
     let results' := (results ++ [success_entry data r])%list in
     when ((delay >? 0)%Z && (Z.of_nat i <? Z.of_nat n - 1)%Z) (sleep delay) ;;;
     ret results')
    (fun error =>
       let results' := (results ++ [failure_entry data error])%list in
       emit (ConsoleError
         ("Error checking " ++ in_number data ++ ": " ++ err_message error)
         None) ;;;
       ret results').

(** The loop from index [i] on; [rest] holds the elements at indices [i ..]. *)
Fixpoint batch_loop (n : nat) (delay : Z) (i : nat) (rest : list NumberData)
    (results : list Outcome) : M (list Outcome) :=
  match rest with
  | [] => ret results
  | data :: rest' =>
      results' <- iteration n delay i data results ;;
      batch_loop n delay (S i) rest' results'
  end.

(** [checkMultipleNumbers(numbersData, delay = 1000)]. *)
Definition checkMultipleNumbers (numbersData : list NumberData)
    (delay : option Z) : M (list Outcome) :=
  let delay := match delay with Some d => d | None => 1000%Z end in
  batch_loop (length numbersData) delay 0 numbersData [].

End Client.

Arguments mkRun {World A}.
Arguments value {World A}.
Arguments final {World A}.
Arguments trace {World A}.

(** ** Formatting and statistics *)

Section Formatting.

(** [JSON.stringify] on a result object. *)
Variable JSON_stringify : ResultObj -> string.

(** The [{}] of [result.message || {}]. *)
Definition empty_object : Message := mkMessage None None.

Definition formatResult (result : ResultObj) : string :=
  if strict_eq (status result) "OK" then
    let message := match message result with
                   | Some m => m
                   | None => empty_object
                   end in
    let number := or_else (msg_number message) "Unknown" in
    let whatsappStatus := or_else (msg_whatsapp message) "Unknown" in
    let transactionId := or_else (transactionId result) "N/A" in
    "Number: " ++ number ++ ", WhatsApp: " ++ whatsappStatus ++
    ", Transaction ID: " ++ transactionId
  else
    "Status: " ++ or_else (status result) "Unknown" ++
    ", Error: " ++ JSON_stringify result.

End Formatting.

(** [r.success && r.result.message && r.result.message.whatsapp === lit]. *)
Definition whatsapp_is (lit : string) (r : Outcome) : bool :=
  success r &&
  match message (result r) with
  | Some m => strict_eq (msg_whatsapp m) lit
  | None => false
  end.

Definition getStatistics (results : list Outcome) : Statistics :=
  let successful := Z.of_nat (length (filter success results)) in
  let failed := (Z.of_nat (length results) - successful)%Z in
  let whatsappYes := Z.of_nat (length (filter (whatsapp_is "yes") results)) in
  let whatsappNo := Z.of_nat (length (filter (whatsapp_is "no") results)) in
  mkStats (Z.of_nat (length results)) successful failed whatsappYes whatsappNo.

(** ** Helper functions *)

Definition supportedCountries : list string :=
  ["BR"; "MX"; "NG"; "IN"; "ID"; "US"; "CA"; "GB"; "DE"; "FR"].

Fixpoint includes (l : list string) (x : string) : bool :=
  match l with
  | [] => false
  | y :: l' => (y =? x) || includes l' x
  end.

Definition validateCountryCode (country : string) : bool :=
  includes supportedCountries (toUpperCase country).

(** [s.replace(/\D/g, '')]: every character that is not [0-9] is dropped. *)
Fixpoint replace_non_digits (s : string) : string :=
  match s with
  | EmptyString => EmptyString
  | String c s' =>
      if is_digit c then String c (replace_non_digits s')
      else replace_non_digits s'
  end.

Definition validatePhoneNumber (number country : string) : bool :=
  let cleanNumber := replace_non_digits number in
  (8 <=? String.length cleanNumber)%nat && (String.length cleanNumber <=? 15)%nat.

(** ** A scripted endpoint, for running the client on concrete exchanges *)

(** The world is the list of answers still to be given; once it is used up
    the network is down. *)
Definition Script := list FetchOutcome.

Definition scripted (w : Script) (req : HttpRequest) : FetchOutcome * Script :=
  match w with
  | o :: w' => (o, w')
  | [] => (Rejected (mkError "TypeError" "Failed to fetch"), [])
  end.

(** * The Go client, [whatsapp_realtime_checker_go.go] *)

Module Go.

Record WhatsAppMessage := mkMessage { Number : string; WhatsApp : string }.

(** [Message] is a pointer: [None] is [nil]. *)
Record WhatsAppResponse := mkResponse {
  Status : string;
  Message : option WhatsAppMessage;
  PricingStrategy : string;
  TransactionID : string
}.

Record NumberData := mkData {
  DataNumber : string;
  Country : string;
  Callback : string
}.

Record CheckResult := mkCheckResult {
  Input : NumberData;
  Result : option WhatsAppResponse;
  ErrorMessage : string;
  Success : bool
}.

Record CheckStatistics := mkStats {
  Total : Z;
  Successful : Z;
  Failed : Z;
  WhatsAppYes : Z;
  WhatsAppNo : Z
}.

(** [url.Values] restricted to one value per key, kept in key order, which
    is the order [Encode] writes. *)
Definition Values := list (string * string).

Fixpoint Set_ (v : Values) (key val : string) : Values :=
  match v with
  | [] => [(key, val)]
  | (k, x) :: v' =>
      if key =? k then (key, val) :: v'
      else if String.ltb key k then (key, val) :: v
      else (k, x) :: Set_ v' key val
  end.

Definition shouldEscape (c : ascii) : bool :=
  negb (is_digit c || is_alpha c ||
        (c =? "-")%char || (c =? "_")%char || (c =? ".")%char || (c =? "~")%char).

Definition escape_byte (c : ascii) : string :=
  if (c =? " ")%char then "+"
  else if shouldEscape c then
    String "%" (String (hex_digit (nat_of_ascii c / 16))
               (String (hex_digit (nat_of_ascii c mod 16)) EmptyString))
  else String c EmptyString.

Fixpoint QueryEscape (s : string) : string :=
  match s with
  | EmptyString => EmptyString
  | String c s' => escape_byte c ++ QueryEscape s'
  end.

Definition Encode (v : Values) : string :=
  String.concat "&"
    (map (fun kv => QueryEscape (fst kv) ++ "=" ++ QueryEscape (snd kv)) v).

Record Request := mkRequest {
  Method : string;
  URL : string;
  Header : list (string * string);
  Body : string
}.

(** What [httpClient.Do] followed by [io.ReadAll] gives: a transport error,
    or a status code with the body bytes or a read error. *)
Inductive Exchange :=
| DoError (err : string)
| Response (StatusCode : Z) (body : string + string).

Inductive Event :=
| Printf (text : string)
| HttpDo (req : Request)
| TimeSleep (ms : Z).

Definition newline : string := String (ascii_of_nat 10) EmptyString.

Section Client.

Variable World : Type.
Variable Do : World -> Request -> Exchange * World.
(** [json.Unmarshal] into a [WhatsAppResponse], and [json.Marshal] of one. *)
Variable Unmarshal : string -> WhatsAppResponse + string.
Variable Marshal : WhatsAppResponse -> string.

Record WhatsAppRealtimeChecker := mkChecker { apiKey : string; baseURL : string }.

Definition NewWhatsAppRealtimeChecker (key : string) : WhatsAppRealtimeChecker :=
  mkChecker key "https://api.checknumber.ai/v1/realtime/whatsapp".

Variable w : WhatsAppRealtimeChecker.

Definition form_values (number country callback : string) : Values :=
  let data := [] in
  let data := Set_ data "number" number in
  let data := Set_ data "country" (toUpperCase country) in
  if negb (callback =? "") then Set_ data "callback" callback else data.

Definition new_request (number country callback : string) : Request :=
  mkRequest "POST" (baseURL w)
    [("Content-Type", "application/x-www-form-urlencoded");
     ("X-API-Key", apiKey w)]
    (Encode (form_values number country callback)).

(** [CheckNumber] returns [(result, nil)] or [(nil, err)]: [inl] or [inr]. *)
Definition CheckNumber (s : World) (number country callback : string)
  : (WhatsAppResponse + string) * World * list Event :=
  let req := new_request number country callback in
  let (x, s') := Do s req in
  let r :=
    match x with
    | DoError err => inr ("request failed: " ++ err)
    | Response code (inr err) => inr ("failed to read response: " ++ err)
    | Response code (inl body) =>
        if negb (code =? 200)%Z then
          inr ("HTTP error " ++ Number_toString code ++ ": " ++ body)
        else
          match Unmarshal body with
          | inr err => inr ("failed to decode response: " ++ err)
          | inl result => inl result
          end
    end in
  (r, s', [HttpDo req]).

(** The [for i, data := range numbersData] loop from index [i] on. *)
Fixpoint batch_loop (n : nat) (delayMs : Z) (i : nat) (rest : list NumberData)
    (results : list CheckResult) (s : World)
  : list CheckResult * World * list Event :=
  match rest with
  | [] => (results, s, [])
  | data :: rest' =>
      let banner := Printf
        ("Checking " ++ Number_toString (Z.of_nat i + 1) ++ "/" ++
         Number_toString (Z.of_nat n) ++ ": " ++ DataNumber data ++
         " (" ++ Country data ++ ")" ++ newline) in
      let '(r, s1, ev) := CheckNumber s (DataNumber data) (Country data) (Callback data) in
      let '(checkResult, ev1) :=
        match r with
        | inr err =>
            (mkCheckResult data None err false,
             [Printf ("Error checking " ++ DataNumber data ++ ": " ++ err ++ newline)])
        | inl result => (mkCheckResult data (Some result) "" true, [])
        end in
      let results' := (results ++ [checkResult])%list in
      let ev2 :=
        if (delayMs >? 0)%Z && (Z.of_nat i <? Z.of_nat n - 1)%Z
        then [TimeSleep delayMs] else [] in
      let '(out, s2, ev3) := batch_loop n delayMs (S i) rest' results' s1 in
      (out, s2, (banner :: ev ++ ev1 ++ ev2 ++ ev3)%list)
  end.

Definition CheckMultipleNumbers (s : World) (numbersData : list NumberData)
    (delayMs : Z) : list CheckResult * World * list Event :=
  batch_loop (length numbersData) delayMs 0 numbersData [] s.

Definition FormatResult (result : WhatsAppResponse) : string :=
  match Message result with
  | Some m =>
      if Status result =? "OK" then
        let number := if Number m =? "" then "Unknown" else Number m in
        let whatsappStatus := if WhatsApp m =? "" then "Unknown" else WhatsApp m in
        let transactionID :=
          if TransactionID result =? "" then "N/A" else TransactionID result in
        "Number: " ++ number ++ ", WhatsApp: " ++ whatsappStatus ++
        ", Transaction ID: " ++ transactionID
      else "Status: " ++ Status result ++ ", Error: " ++ Marshal result
  | None => "Status: " ++ Status result ++ ", Error: " ++ Marshal result
  end.

End Client.

(** One step of the [for _, result := range results] loop. *)
Definition tally (stats : CheckStatistics) (result : CheckResult) : CheckStatistics :=
  if Success result then
    let stats := mkStats (Total stats) (Successful stats + 1) (Failed stats)
                         (WhatsAppYes stats) (WhatsAppNo stats) in
    match Result result with
    | Some r =>
        match Message r with
        | Some m =>
            if WhatsApp m =? "yes" then
              mkStats (Total stats) (Successful stats) (Failed stats)
                      (WhatsAppYes stats + 1) (WhatsAppNo stats)
            else if WhatsApp m =? "no" then
              mkStats (Total stats) (Successful stats) (Failed stats)
                      (WhatsAppYes stats) (WhatsAppNo stats + 1)
            else stats
        | None => stats
        end
    | None => stats
    end
  else
    mkStats (Total stats) (Successful stats) (Failed stats + 1)
            (WhatsAppYes stats) (WhatsAppNo stats).

Definition GetStatistics (results : list CheckResult) : CheckStatistics :=
  fold_left tally results (mkStats (Z.of_nat (length results)) 0 0 0 0).

(** The [for _, char := range number] loop: digits are appended. *)
Fixpoint keep_digits (number : string) (cleanNumber : string) : string :=
  match number with
  | EmptyString => cleanNumber
  | String char rest =>
      keep_digits rest
        (if is_digit char then cleanNumber ++ String char EmptyString
         else cleanNumber)
  end.

Definition ValidatePhoneNumber (number country : string) : bool :=
  let cleanNumber := keep_digits number "" in
  (8 <=? String.length cleanNumber)%nat && (String.length cleanNumber <=? 15)%nat.

(** A scripted endpoint. *)
Definition Script := list Exchange.

Definition scripted (s : Script) (req : Request) : Exchange * Script :=
  match s with
  | x :: s' => (x, s')
  | [] => (DoError "dial tcp: connection refused", [])
  end.

(** Vocabulary: the requests of an event list, its sleeps grouped by the
    requests around them, and the tallies of a list of results. *)
Fixpoint calls (t : list Event) : list Request :=
  match t with
  | [] => []
  | HttpDo r :: t' => r :: calls t'
  | _ :: t' => calls t'
  end.

Fixpoint split_at_calls (t : list Event) (cur : list Z) : list (list Z) :=
  match t with
  | [] => [cur]
  | HttpDo _ :: t' => cur :: split_at_calls t' []
  | TimeSleep ms :: t' => split_at_calls t' (cur ++ [ms])%list
  | Printf _ :: t' => split_at_calls t' cur
  end.


(** The sleeps after each of [count] calls, the first of them at index [i]
    of a batch of [n]. *)
Fixpoint pacing (n : nat) (delayMs : Z) (i count : nat) : list (list Z) :=
  match count with
  | O => []
  | S count' =>
      (if (delayMs >? 0)%Z && (Z.of_nat i <? Z.of_nat n - 1)%Z
       then [delayMs] else [])
      :: pacing n delayMs (S i) count'
  end.

Definition answers (v : string) (r : CheckResult) : bool :=
  Success r &&
  match Result r with
  | Some resp =>
      match Message resp with
      | Some m => WhatsApp m =? v
      | None => false
      end
  | None => false
  end.

Definition count (p : CheckResult -> bool) (l : list CheckResult) : Z :=
  Z.of_nat (length (filter p l)).

(** [text] renders a field of a decoded struct, where a missing JSON field
    is the empty string, with [sentinel] standing in for it. *)
Definition shown (field sentinel text : string) : Prop :=
  (field = "" -> text = sentinel) /\ (field <> "" -> text = field).

(** The batch of [main] and a checker for it. *)
Definition numbersToCheck : list NumberData :=
  [mkData "628138800001" "ID" ""; mkData "5511999999999" "BR" "";
   mkData "5215555555555" "MX" ""; mkData "919876543210" "IN" ""].

Definition checker : WhatsAppRealtimeChecker :=
  NewWhatsAppRealtimeChecker "YOUR_API_KEY".


(** Helper functions of the Go file. *)
Definition supportedCountries : list string :=
  ["BR"; "MX"; "NG"; "IN"; "ID"; "US"; "CA"; "GB"; "DE"; "FR"].



(** ** [func main] *)

(** What [main] writes: the events of the library functions and the lines
    of [fmt.Println] and [fmt.Printf] on standard output, and the messages
    handed to [log.Printf], which go to standard error behind the logger's
    time stamp. *)
Inductive Output :=
| Lib (e : Event)
| LogPrintf (text : string).

Fixpoint lib (t : list Output) : list Event :=
  match t with
  | [] => []
  | Lib e :: t' => e :: lib t'
  | LogPrintf _ :: t' => lib t'
  end.

Fixpoint log_lines (t : list Output) : list string :=
  match t with
  | [] => []
  | Lib _ :: t' => log_lines t'
  | LogPrintf text :: t' => text :: log_lines t'
  end.

Section Main.

Variable World : Type.
Variable Do : World -> Request -> Exchange * World.
Variable Unmarshal : string -> WhatsAppResponse + string.
Variable Marshal : WhatsAppResponse -> string.
(** [json.MarshalIndent(result, "", "  ")], its error dropped. *)
Variable MarshalIndent : WhatsAppResponse -> string.

(** The [for i, result := range results] loop of the summary, from index
    [i] on. *)
Fixpoint summary (i : nat) (results : list CheckResult) : list Event :=
  match results with
  | [] => []
  | result :: rest =>
      let inputData := Input result in
      (match Success result, Result result with
       | true, Some r =>
           let formatted := FormatResult Marshal r in
           Printf (Number_toString (Z.of_nat i + 1) ++ ". " ++ formatted ++ newline)
       | _, _ =>
           Printf (Number_toString (Z.of_nat i + 1) ++ ". Error for " ++
                   DataNumber inputData ++ " (" ++ Country inputData ++ "): " ++
                   ErrorMessage result ++ newline)
       end) :: summary (S i) rest
  end.

(** [main], given what [os.Getenv("WHATSAPP_RT_API_KEY")] returns. *)
Definition main (env : string) (s : World) : World * list Output :=
  let apiKey := if env =? "" then "YOUR_API_KEY" else env in
  let checker := NewWhatsAppRealtimeChecker apiKey in
  let '(r, s1, ev) := CheckNumber World Do Unmarshal checker s "628138800001" "ID" "" in
  let single :=
    match r with
    | inr err => [LogPrintf ("Error: " ++ err)]
    | inl result =>
        [Lib (Printf ("Result: " ++ FormatResult Marshal result ++ newline));
         Lib (Printf ("Raw Response: " ++ MarshalIndent result ++ newline))]
    end in
  let '(results, s2, ev2) :=
    CheckMultipleNumbers World Do Unmarshal checker s1 numbersToCheck 1000 in
  let stats := GetStatistics results in
  (s2,
   (Lib (Printf ("=== Single Number Check ===" ++ newline)) :: map Lib ev ++
    single ++
    Lib (Printf (newline ++ "=== Multiple Numbers Check ===" ++ newline)) ::
    map Lib ev2 ++
    Lib (Printf (newline ++ "=== Results Summary ===" ++ newline)) ::
    map Lib (summary 0 results) ++
    [Lib (Printf (newline ++ "=== Statistics ===" ++ newline));
     Lib (Printf ("Total Checks: " ++ Number_toString (Total stats) ++ newline));
     Lib (Printf ("Successful: " ++ Number_toString (Successful stats) ++ newline));
     Lib (Printf ("Failed: " ++ Number_toString (Failed stats) ++ newline));
     Lib (Printf ("WhatsApp Yes: " ++ Number_toString (WhatsAppYes stats) ++ newline));
     Lib (Printf ("WhatsApp No: " ++ Number_toString (WhatsAppNo stats) ++ newline))])%list).

End Main.

End Go.

(** * The PHP client, [whatsapp_realtime_checker_php.php] *)

(** The PHP client is run in the same monad.  [curl_exec] with the
    [curl_getinfo] and [curl_error] calls after it is one step of the
    endpoint: [Rejected e] is a non-empty [curl_error], [Resolved r] gives
    [$httpCode], [$response] and what [json_decode] makes of the response.
    [echo] is a [ConsoleLog] event, the transfer a [FetchCall] event and
    [usleep] a [SetTimeout] event (in microseconds). *)
Module Php.

(** The [$postData] array built at the top of [checkNumber]; [None] is a
    [null] callback. *)
Definition postData (number country : string) (callback : option string)
  : list (string * string) :=
  let postData := [("number", number); ("country", toUpperCase country)] in
  match callback with
  | Some cb => (postData ++ [("callback", cb)])%list
  | None => postData
  end.

(** [urlencode]: alphanumerics and [-], [_], [.] stay, a space becomes [+]. *)
Definition urlencode_byte (c : ascii) : string :=
  if (c =? " ")%char then "+"
  else if is_digit c || is_alpha c ||
          (c =? "-")%char || (c =? "_")%char || (c =? ".")%char
  then String c EmptyString
  else String "%" (String (hex_digit (nat_of_ascii c / 16))
                  (String (hex_digit (nat_of_ascii c mod 16)) EmptyString)).

Fixpoint urlencode (s : string) : string :=
  match s with
  | EmptyString => EmptyString
  | String c s' => urlencode_byte c ++ urlencode s'
  end.

Definition http_build_query (data : list (string * string)) : string :=
  String.concat "&" (map (fun kv => urlencode (fst kv) ++ "=" ++ urlencode (snd kv)) data).

Definition newline : string := String (ascii_of_nat 10) EmptyString.

Section Client.

Variable World : Type.
Variable curl : World -> HttpRequest -> FetchOutcome * World.
Variable this : Checker.

Notation "x <- m ;; k" := (bind World m (fun x => k))
  (at level 61, m at next level, right associativity).
Notation "m ;;; k" := (bind World m (fun _ => k))
  (at level 61, right associativity).

Definition RuntimeException (msg : string) : JsError :=
  mkError "RuntimeException" msg.

Definition request_of (number country : string) (callback : option string)
  : HttpRequest :=
  mkRequest (baseUrl this) "POST"
    [("Content-Type", "application/x-www-form-urlencoded");
     ("X-API-Key", apiKey this)]
    (http_build_query (postData number country callback)).

Definition checkNumber (number country : string) (callback : option string)
  : M World ResultObj := fun w =>
  let req := request_of number country callback in
  let (o, w') := curl w req in
  let outcome :=
    match o with
    | Rejected e => Throw (RuntimeException ("cURL error: " ++ err_message e))
    | Resolved r =>
        if negb (res_status r =? 200)%Z then
          Throw (RuntimeException
                   ("HTTP error: " ++ Number_toString (res_status r) ++
                    ", Response: " ++ res_text r))
        else
          match res_json r with
          | Return decoded => Return decoded
          | Throw e =>
              Throw (RuntimeException ("JSON decode error: " ++ err_message e))
          end
    end in
  mkRun outcome w' [FetchCall req].

(** One round of the [foreach] loop of [checkMultipleNumbers]. *)
Definition iteration (total : nat) (delayMs : Z) (index : nat) (data : NumberData)
    (results : list Outcome) : M World (list Outcome) :=
  emit World (ConsoleLog
    ("Checking " ++ Number_toString (Z.of_nat index + 1) ++ "/" ++
     Number_toString (Z.of_nat total) ++ ": " ++ in_number data ++
     " (" ++ in_country data ++ ")" ++ newline)) ;;;
  results' <-
    try_catch World
      (result <- checkNumber (in_number data) (in_country data) (in_callback data) ;;
       ret World (results ++ [success_entry data result])%list)
      (fun e =>
         emit World (ConsoleLog
           ("Error checking " ++ in_number data ++ ": " ++ err_message e ++ newline)) ;;;
         ret World (results ++ [failure_entry data e])%list) ;;
  when World ((delayMs >? 0)%Z && (Z.of_nat index <? Z.of_nat total - 1)%Z)
    (emit World (SetTimeout (delayMs * 1000))) ;;;
  ret World results'.

Fixpoint batch_loop (total : nat) (delayMs : Z) (index : nat)
    (rest : list NumberData) (results : list Outcome) : M World (list Outcome) :=
  match rest with
  | [] => ret World results
  | data :: rest' =>
      results' <- iteration total delayMs index data results ;;
      batch_loop total delayMs (S index) rest' results'
  end.

(** [checkMultipleNumbers(array $numbersData, int $delayMs = 1000)]. *)
Definition checkMultipleNumbers (numbersData : list NumberData)
    (delayMs : option Z) : M World (list Outcome) :=
  let delayMs := match delayMs with Some d => d | None => 1000%Z end in
  batch_loop (length numbersData) delayMs 0 numbersData [].

(** The lookups of a batch, each in the world its predecessor left. *)
Fixpoint lookups (items : list NumberData) (w : World)
  : list (Completion ResultObj) :=
  match items with
  | [] => []
  | data :: items' =>
      let r := checkNumber (in_number data) (in_country data) (in_callback data) w in
      value r :: lookups items' (final r)
  end.

End Client.

(** The pauses after each of [count] transfers, the first of them at index
    [i] of a batch of [n]. *)
Fixpoint pacing (n : nat) (delayMs : Z) (i count : nat) : list (list Z) :=
  match count with
  | O => []
  | S count' =>
      (if (delayMs >? 0)%Z && (Z.of_nat i <? Z.of_nat n - 1)%Z
       then [(delayMs * 1000)%Z] else [])
      :: pacing n delayMs (S i) count'
  end.

(** Helper functions of the PHP file. *)
Definition supportedCountries : list string :=
  ["BR"; "MX"; "NG"; "IN"; "ID"; "US"; "CA"; "GB"; "DE"; "FR"].

(** [in_array($needle, $haystack, true)] on strings. *)
Fixpoint in_array (needle : string) (haystack : list string) : bool :=
  match haystack with
  | [] => false
  | x :: haystack' => (x =? needle) || in_array needle haystack'
  end.

Definition validateCountryCode (country : string) : bool :=
  in_array (toUpperCase country) supportedCountries.

(** ** [formatResult], [getStatistics] and [main] *)

(** [$a ?? $d]: the default stands in for a missing key or [null] only. *)
Definition coalesce (v : option string) (d : string) : string :=
  match v with
  | Some s => s
  | None => d
  end.

Section Script.

(** [json_encode] with and without [JSON_PRETTY_PRINT]. *)
Variable json_encode : ResultObj -> string.
Variable json_encode_pretty : ResultObj -> string.

Definition formatResult (result : ResultObj) : string :=
  match message result with
  | Some message =>
      if strict_eq (status result) "OK" then
        let number := coalesce (msg_number message) "Unknown" in
        let whatsappStatus := coalesce (msg_whatsapp message) "Unknown" in
        let transactionId := coalesce (transactionId result) "N/A" in
        "Number: " ++ number ++ ", WhatsApp: " ++ whatsappStatus ++
        ", Transaction ID: " ++ transactionId
      else
        "Status: " ++ coalesce (status result) "Unknown" ++
        ", Error: " ++ json_encode result
  | None =>
      "Status: " ++ coalesce (status result) "Unknown" ++
      ", Error: " ++ json_encode result
  end.

(** The counters [$successful], [$whatsappYes], [$whatsappNo]. *)
Record Counters := mkCounters { c_successful : Z; c_yes : Z; c_no : Z }.

(** One round of the [foreach ($results as $result)] loop. *)
Definition count_result (c : Counters) (entry : Outcome) : Counters :=
  if success entry then
    let c := mkCounters (c_successful c + 1) (c_yes c) (c_no c) in
    match message (result entry) with
    | Some m =>
        match msg_whatsapp m with
        | Some whatsappStatus =>
            if whatsappStatus =? "yes"
            then mkCounters (c_successful c) (c_yes c + 1) (c_no c)
            else if whatsappStatus =? "no"
            then mkCounters (c_successful c) (c_yes c) (c_no c + 1)
            else c
        | None => c
        end
    | None => c
    end
  else c.

Definition getStatistics (results : list Outcome) : Statistics :=
  let total := Z.of_nat (length results) in
  let c := fold_left count_result results (mkCounters 0 0 0) in
  mkStats total (c_successful c) (total - c_successful c) (c_yes c) (c_no c).

Variable World : Type.
Variable curl : World -> HttpRequest -> FetchOutcome * World.

Notation "x <- m ;; k" := (bind World m (fun x => k))
  (at level 61, m at next level, right associativity).
Notation "m ;;; k" := (bind World m (fun _ => k))
  (at level 61, right associativity).

Definition echo (text : string) : M World unit := emit World (ConsoleLog text).

(** The [foreach ($results as $index => $result)] loop of [main]; [entry]
    is [$result]. *)
Fixpoint summary (index : nat) (results : list Outcome) : M World unit :=
  match results with
  | [] => ret World tt
  | entry :: rest =>
      let inputData := input entry in
      let itemNumber := Number_toString (Z.of_nat index + 1) in
      (if success entry then
         let formatted := formatResult (result entry) in
         echo (itemNumber ++ ". " ++ formatted ++ newline)
       else
         let number := in_number inputData in
         let country := in_country inputData in
         let error := coalesce (error (result entry)) "" in
         echo (itemNumber ++ ". Error for " ++ number ++ " (" ++ country ++ "): " ++
               error ++ newline)) ;;;
      summary (S index) rest
  end.

Definition numbersToCheck : list NumberData :=
  [mkData "628138800001" "ID" None;
   mkData "5511999999999" "BR" None;
   mkData "5215555555555" "MX" None;
   mkData "919876543210" "IN" None].

(** [main]: [env] is [$_ENV['WHATSAPP_RT_API_KEY']]; the value returned is
    the exit status of the script, [1] after [exit(1)]. *)
Definition main (env : option string) : M World Z :=
  let apiKey := coalesce env "YOUR_API_KEY" in
  let checker := new_WhatsAppRealtimeChecker apiKey in
  try_catch World
    (echo ("=== Single Number Check ===" ++ newline) ;;;
     result <- checkNumber World curl checker "628138800001" "ID" None ;;
     echo ("Result: " ++ formatResult result ++ newline) ;;;
     echo ("Raw Response: " ++ json_encode_pretty result ++ newline) ;;;
     echo (newline ++ "=== Multiple Numbers Check ===" ++ newline) ;;;
     results <- checkMultipleNumbers World curl checker numbersToCheck (Some 1000%Z) ;;
     echo (newline ++ "=== Results Summary ===" ++ newline) ;;;
     summary 0 results ;;;
     let stats := getStatistics results in
     echo (newline ++ "=== Statistics ===" ++ newline) ;;;
     echo ("Total Checks: " ++ Number_toString (total stats) ++ newline) ;;;
     echo ("Successful: " ++ Number_toString (successful stats) ++ newline) ;;;
     echo ("Failed: " ++ Number_toString (failed stats) ++ newline) ;;;
     echo ("WhatsApp Yes: " ++ Number_toString (whatsappYes stats) ++ newline) ;;;
     echo ("WhatsApp No: " ++ Number_toString (whatsappNo stats) ++ newline) ;;;
     ret World 0%Z)
    (fun e =>
       echo ("Error: " ++ err_message e ++ newline) ;;;
       ret World 1%Z).

End Script.

(** ** [validatePhoneNumber] and [interactiveCLI] *)

(** [preg_replace('/\D/', '', $number)] and [strlen]: on bytes. *)
Definition validatePhoneNumber (number country : string) : bool :=
  let cleanNumber := replace_non_digits number in
  let length := String.length cleanNumber in
  (8 <=? length)%nat && (length <=? 15)%nat.

(** A value that is a string or [false], as [readline] returns it: what
    [empty] says of it and the string it is converted to. *)
Definition empty (v : option string) : bool :=
  match v with
  | Some s => (s =? "") || (s =? "0")
  | None => true
  end.

Definition strval (v : option string) : string := coalesce v "".

(** [trim]: spaces, tabs, line feeds, carriage returns, NUL bytes and
    vertical tabs are stripped from both ends. *)
Definition is_stripped (c : ascii) : bool :=
  let n := nat_of_ascii c in
  (n =? 32)%nat || (n =? 9)%nat || (n =? 10)%nat || (n =? 13)%nat ||
  (n =? 0)%nat || (n =? 11)%nat.

Fixpoint ltrim (s : string) : string :=
  match s with
  | EmptyString => EmptyString
  | String c s' => if is_stripped c then ltrim s' else s
  end.

Fixpoint rtrim (s : string) : string :=
  match s with
  | EmptyString => EmptyString
  | String c s' =>
      let t := rtrim s' in
      if (t =? "") && is_stripped c then EmptyString else String c t
  end.

Definition trim (s : string) : string := rtrim (ltrim s).

Section Interactive.

Variable json_encode : ResultObj -> string.
Variable World : Type.
Variable curl : World -> HttpRequest -> FetchOutcome * World.
(** [$a == $b] on two strings, which compares numeric strings as numbers. *)
Variable loose_eq : string -> string -> bool.

(** A session at the terminal: the endpoint, and the lines still to come
    on standard input. *)
Definition Session : Type := World * list string.

Definition curl_in (s : Session) (req : HttpRequest) : FetchOutcome * Session :=
  let (o, w') := curl (fst s) req in (o, (w', snd s)).

Notation "x <- m ;; k" := (bind Session m (fun x => k))
  (at level 61, m at next level, right associativity).
Notation "m ;;; k" := (bind Session m (fun _ => k))
  (at level 61, right associativity).

Definition say (text : string) : M Session unit := emit Session (ConsoleLog text).

(** [readline($prompt)]: the prompt is written, and the next line is
    returned, or [false] at the end of the input. *)
Definition readline (prompt : string) : M Session (option string) := fun s =>
  match snd s with
  | [] => mkRun (Return None) s [ConsoleLog prompt]
  | line :: rest => mkRun (Return (Some line)) (fst s, rest) [ConsoleLog prompt]
  end.

(** [case 'label':] of [switch ($choice)]: [false] equals none of the
    three labels. *)
Definition case_is (choice : option string) (label : string) : bool :=
  match choice with
  | Some s => loose_eq s label
  | None => false
  end.

Variable checker : Checker.

(** The body of [case '1']. *)
Definition single_check : M Session unit :=
  number <- readline "Enter phone number: " ;;
  line <- readline "Enter country code (e.g., ID, BR, MX): " ;;
  let country := toUpperCase (strval line) in
  if negb (validateCountryCode country) then
    say ("Unsupported country code: " ++ country ++ newline)
  else if negb (validatePhoneNumber (strval number) country) then
    say ("Invalid phone number format: " ++ strval number ++ newline)
  else
    try_catch Session
      (result <- checkNumber Session curl_in checker (strval number) country None ;;
       say ("Result: " ++ formatResult json_encode result ++ newline))
      (fun e => say ("Error: " ++ err_message e ++ newline)).

(** The inner [while (true)] of [case '2'], on the lines still to come. *)
Fixpoint read_pairs (stdin : list string) (numbersData : list NumberData)
    (w : World) : Run Session (list NumberData) :=
  match stdin with
  | [] => mkRun (Return numbersData) (w, []) [ConsoleLog ""]
  | line :: rest =>
      if empty (Some line) then mkRun (Return numbersData) (w, rest) [ConsoleLog ""]
      else
        let parts := map trim (split "," line) in
        let numbersData :=
          if (2 <=? length parts)%nat then
            (numbersData ++ [mkData (nth 0 parts "") (nth 1 parts "") None])%list
          else numbersData in
        let r := read_pairs rest numbersData w in
        mkRun (value r) (final r) (ConsoleLog "" :: trace r)
  end.

(** The [foreach ($results as $index => $result)] loop of [case '2']. *)
Fixpoint list_results (index : nat) (results : list Outcome) : M Session unit :=
  match results with
  | [] => ret Session tt
  | entry :: rest =>
      let itemNumber := Number_toString (Z.of_nat index + 1) in
      (if success entry then
         say (itemNumber ++ ". " ++ formatResult json_encode (result entry) ++ newline)
       else
         let inputData := input entry in
         say (itemNumber ++ ". Error for " ++ in_number inputData ++ " (" ++
              in_country inputData ++ "): " ++ coalesce (error (result entry)) "" ++
              newline)) ;;;
      list_results (S index) rest
  end.

(** The body of [case '2']. *)
Definition bulk_check : M Session unit :=
  say ("Enter phone numbers in format: number,country (one per line)" ++ newline) ;;;
  say ("Press Enter twice when done:" ++ newline) ;;;
  numbersData <- (fun s => read_pairs (snd s) [] (fst s)) ;;
  match numbersData with
  | [] => say ("No valid numbers entered." ++ newline)
  | _ :: _ =>
      try_catch Session
        (results <- checkMultipleNumbers Session curl_in checker numbersData
                      (Some 1000%Z) ;;
         let stats := getStatistics results in
         say (newline ++ "Results Summary:" ++ newline) ;;;
         list_results 0 results ;;;
         say (newline ++ "Statistics:" ++ newline) ;;;
         say ("Total: " ++ Number_toString (total stats) ++
              ", Successful: " ++ Number_toString (successful stats) ++
              ", Failed: " ++ Number_toString (failed stats) ++ newline) ;;;
         say ("WhatsApp Yes: " ++ Number_toString (whatsappYes stats) ++
              ", WhatsApp No: " ++ Number_toString (whatsappNo stats) ++ newline))
        (fun e => say ("Error: " ++ err_message e ++ newline))
  end.

(** One round of the outer [while (true)]: [Some code] after [exit(code)],
    [None] when the loop goes on. *)
Definition round : M Session (option Z) :=
  say (newline ++ "1. Check single number" ++ newline) ;;;
  say ("2. Check multiple numbers" ++ newline) ;;;
  say ("3. Exit" ++ newline) ;;;
  choice <- readline "Choose an option (1-3): " ;;
  if case_is choice "1" then single_check ;;; ret Session None
  else if case_is choice "2" then bulk_check ;;; ret Session None
  else if case_is choice "3" then
    say ("Goodbye!" ++ newline) ;;; ret Session (Some 0%Z)
  else
    say ("Invalid choice. Please enter 1, 2, or 3." ++ newline) ;;;
    ret Session None.

(** At most [n] rounds of the loop: [None] when it is still running. *)
Fixpoint rounds (n : nat) : M Session (option Z) :=
  match n with
  | O => ret Session None
  | S n' =>
      r <- round ;;
      match r with
      | Some code => ret Session (Some code)
      | None => rounds n'
      end
  end.

End Interactive.

(** [interactiveCLI], run for at most [n] rounds of its menu. *)
Definition interactiveCLI (json_encode : ResultObj -> string) (World : Type)
    (curl : World -> HttpRequest -> FetchOutcome * World)
    (loose_eq : string -> string -> bool) (n : nat)
  : M (Session World) (option Z) :=
  bind (Session World)
    (say World ("WhatsApp Realtime Checker - Interactive Mode" ++ newline))
    (fun _ =>
  bind (Session World)
    (say World ("===========================================" ++ newline ++ newline))
    (fun _ =>
  bind (Session World) (readline World "Enter your API key: ") (fun apiKey =>
  if empty apiKey then
    bind (Session World) (say World ("API key is required!" ++ newline))
      (fun _ => ret (Session World) (Some 1%Z))
  else
    let checker := new_WhatsAppRealtimeChecker (strval apiKey) in
    rounds json_encode World curl loose_eq checker n))).

End Php.

(** * Vocabulary of the specification *)

(** The number of decimal-digit characters of a string. *)
Fixpoint digit_count (s : string) : nat :=
  match s with
  | EmptyString => 0
  | String c s' => (if is_digit c then 1 else 0) + digit_count s'
  end.

(** The [whatsapp] field of an outcome's response, when there is one. *)
Definition whatsapp_field (o : Outcome) : option string :=
  match message (result o) with
  | Some m => msg_whatsapp m
  | None => None
  end.

(** How many outcomes are successful and answer [v] for [whatsapp]. *)
Fixpoint count_answer (v : string) (l : list Outcome) : nat :=
  match l with
  | [] => 0
  | o :: l' =>
      match success o, whatsapp_field o with
      | true, Some s => if s =? v then S (count_answer v l') else count_answer v l'
      | _, _ => count_answer v l'
      end
  end.

(** A successful outcome whose [whatsapp] value is absent or neither
    ["yes"] nor ["no"]. *)
Definition in_neither_tally (o : Outcome) : Prop :=
  success o = true /\ whatsapp_field o <> Some "yes" /\ whatsapp_field o <> Some "no".

(** The [number] and [whatsapp] fields of a response: those of its
    [message], when it has one. *)
Definition number_field (r : ResultObj) : option string :=
  match message r with
  | Some m => msg_number m
  | None => None
  end.

Definition answer_field (r : ResultObj) : option string :=
  match message r with
  | Some m => msg_whatsapp m
  | None => None
  end.

(** [text] renders [field], with [sentinel] standing in for a missing one. *)
Definition shows (field : option string) (sentinel text : string) : Prop :=
  (field = None -> text = sentinel) /\
  (forall s, field = Some s -> s <> "" -> text = s).

(** [a] put in front of the first piece of a split. *)
Definition prepend (a : string) (l : list string) : list string :=
  match l with
  | h :: t => (a ++ h) :: t
  | [] => [a]
  end.


(** The error [checkNumber] throws for an answer that is not [ok], and the
    console line of its [catch] block. *)
Definition http_error (r : HttpResponse) : JsError :=
  mkError "Error" ("HTTP error! status: " ++ Number_toString (res_status r)).

Definition logged (e : JsError) : Event :=
  ConsoleError "Error checking number:" (Some e).

(** The four values of the [status] enumeration of the wire protocol. *)
Definition enumerated (s : option string) : Prop :=
  s = Some "OK" \/ s = Some "FAIL" \/ s = Some "INVALID_INPUT" \/
  s = Some "RETRY_LATER".

(** The network calls of a trace, in order, and its timers. *)
Fixpoint fetch_calls (t : list Event) : list HttpRequest :=
  match t with
  | [] => []
  | FetchCall r :: t' => r :: fetch_calls t'
  | _ :: t' => fetch_calls t'
  end.

Fixpoint timers (t : list Event) : list Z :=
  match t with
  | [] => []
  | SetTimeout ms :: t' => ms :: timers t'
  | _ :: t' => timers t'
  end.

(** The timers of a trace, grouped by the network calls around them: the
    first group holds the timers set before the first call, group [k] those
    set after the [k]-th call and before the next one (or the end). *)
Fixpoint split_at_calls (t : list Event) (cur : list Z) : list (list Z) :=
  match t with
  | [] => [cur]
  | FetchCall _ :: t' => cur :: split_at_calls t' []
  | SetTimeout ms :: t' => split_at_calls t' (cur ++ [ms])%list
  | _ :: t' => split_at_calls t' cur
  end.

(** Timers set after the [k]-th network call (counting from 1) and before
    the next one, or before the end of the trace. *)
Definition timers_after (k : nat) (t : list Event) : list Z :=
  nth k (split_at_calls t []) [].

Section Reference.

Variable World : Type.
Variable fetch : World -> HttpRequest -> FetchOutcome * World.
Variable this : Checker.

Definition lookup (data : NumberData) : M World ResultObj :=
  checkNumber World fetch this (in_number data) (in_country data) (in_callback data).

(** The single lookups of a batch, each run in the world its predecessor
    left behind. *)
Fixpoint lookups (items : list NumberData) (w : World)
  : list (Completion ResultObj) :=
  match items with
  | [] => []
  | data :: items' =>
      let r := lookup data w in value r :: lookups items' (final r)
  end.

Definition entry_of (data : NumberData) (c : Completion ResultObj) : Outcome :=
  match c with
  | Return r => success_entry data r
  | Throw e => failure_entry data e
  end.

Definition is_return {A} (c : Completion A) : bool :=
  match c with Return _ => true | Throw _ => false end.

(** The outcomes a batch should collect: one per item, from its lookup. *)
Definition entries (items : list NumberData) (w : World) : list Outcome :=
  map (fun p => entry_of (fst p) (snd p)) (combine items (lookups items w)).

Definition request_for (data : NumberData) : HttpRequest :=
  request_of this (in_number data) (in_country data) (in_callback data).

End Reference.

(** The timers the browser client sets after each call of a batch of [n]
    items, from index [i] on: one after a lookup that returned, when the
    delay is positive and the item is not the last. *)
Fixpoint pacing (n : nat) (delay : Z) (i : nat)
    (cs : list (Completion ResultObj)) : list (list Z) :=
  match cs with
  | [] => []
  | c :: cs' =>
      (if is_return c && ((delay >? 0)%Z && (Z.of_nat i <? Z.of_nat n - 1)%Z)
       then [delay] else [])
      :: pacing n delay (S i) cs'
  end.


(** * The C# client

    [src/examples/whatsapp_realtime_checker_csharp.cs].  An exception is its
    class name and its [Message] (a [catch] clause for a class is taken to
    catch the exceptions of exactly that class); a reference that can be
    [null] is an [option].  The members of the framework that the client
    calls are parameters: [string.ToUpper], which follows the current
    culture, [FormUrlEncodedContent], the message of the exception of
    [EnsureSuccessStatusCode], and [JsonSerializer.Deserialize]. *)
Module CSharp.

Record WhatsAppMessage := mkMessage {
  Number : option string;
  WhatsApp : option string
}.

Record WhatsAppResponse := mkResponse {
  Status : option string;
  Message : option WhatsAppMessage;
  PricingStrategy : option string;
  TransactionId : option string
}.

Record NumberData := mkData {
  DataNumber : string;
  Country : string;
  Callback : option string
}.

Record CheckResult := mkCheckResult {
  Input : NumberData;
  Result : option WhatsAppResponse;
  ErrorMessage : option string;
  Success : bool
}.

(** The [HttpResponseMessage] that [PostAsync] completes with. *)
Record HttpResponseMessage := mkResponseMessage {
  StatusCode : Z;
  ReasonPhrase : string;
  Content : string
}.

Definition IsSuccessStatusCode (response : HttpResponseMessage) : bool :=
  (200 <=? StatusCode response)%Z && (StatusCode response <=? 299)%Z.

(** What awaiting [httpClient.PostAsync] gives. *)
Inductive PostOutcome :=
| Faulted (ex : JsError)
| Completed (response : HttpResponseMessage).

Definition Exception (Message : string) : JsError := mkError "Exception" Message.

Definition is_a (class : string) (ex : JsError) : bool := err_name ex =? class.

Section Client.

Variable World : Type.
Variable PostAsync : World -> HttpRequest -> PostOutcome * World.
Variable ToUpper : string -> string.
Variable FormUrlEncodedContent : list (string * string) -> string.
Variable EnsureSuccessStatusCode_Message : HttpResponseMessage -> string.
Variable Deserialize : string -> Completion (option WhatsAppResponse).

Notation "x <- m ;; k" := (bind World m (fun x => k))
  (at level 61, m at next level, right associativity).
Notation "m ;;; k" := (bind World m (fun _ => k))
  (at level 61, right associativity).

Record WhatsAppRealtimeChecker := mkChecker { apiKey : string; baseUrl : string }.

Definition new_WhatsAppRealtimeChecker (key : string) : WhatsAppRealtimeChecker :=
  mkChecker key "https://api.checknumber.ai/v1/realtime/whatsapp".

Variable this : WhatsAppRealtimeChecker.

Definition IsNullOrEmpty (s : option string) : bool :=
  match s with
  | Some v => v =? ""
  | None => true
  end.

Definition parameters_of (number country : string) (callback : option string)
  : list (string * string) :=
  let parameters := [("number", number); ("country", ToUpper country)] in
  match callback with
  | Some cb =>
      if negb (IsNullOrEmpty callback) then (parameters ++ [("callback", cb)])%list
      else parameters
  | None => parameters
  end.

(** The request of [httpClient.PostAsync(baseUrl, formContent)], with the
    default header the constructor adds. *)
Definition request_of (number country : string) (callback : option string)
  : HttpRequest :=
  mkRequest (baseUrl this) "POST" [("X-API-Key", apiKey this)]
    (FormUrlEncodedContent (parameters_of number country callback)).

Definition await_PostAsync (req : HttpRequest) : M World HttpResponseMessage :=
  fun w =>
    let (o, w') := PostAsync w req in
    match o with
    | Completed response => mkRun (Return response) w' [FetchCall req]
    | Faulted ex => mkRun (Throw ex) w' [FetchCall req]
    end.

Definition EnsureSuccessStatusCode (response : HttpResponseMessage) : M World unit :=
  when World (negb (IsSuccessStatusCode response))
    (throw World
       (mkError "HttpRequestException" (EnsureSuccessStatusCode_Message response))).

Definition CheckNumberAsync (number country : string) (callback : option string)
  : M World (option WhatsAppResponse) :=
  let req := request_of number country callback in
  try_catch World
    (response <- await_PostAsync req ;;
     EnsureSuccessStatusCode response ;;;
     let json := Content response in
     fun w => mkRun (Deserialize json) w [])
    (fun ex =>
       if is_a "HttpRequestException" ex then
         throw World (Exception ("Request failed: " ++ err_message ex))
       else if is_a "JsonException" ex then
         throw World (Exception ("JSON parsing error: " ++ err_message ex))
       else throw World ex).

(** One round of the [for] loop of [CheckMultipleNumbersAsync]: the
    [try]/[catch] statement at index [i], with [count] for
    [numbersData.Count]. *)
Definition iteration (count : nat) (delayMilliseconds : Z) (i : nat)
    (data : NumberData) (results : list CheckResult) : M World (list CheckResult) :=
  try_catch World
    (emit World (ConsoleLog
       ("Checking " ++ Number_toString (Z.of_nat i + 1) ++ "/" ++
        Number_toString (Z.of_nat count) ++ ": " ++ DataNumber data ++
        " (" ++ Country data ++ ")")) ;;;
     result <- CheckNumberAsync (DataNumber data) (Country data) (Callback data) ;;
     let results' := (results ++ [mkCheckResult data result None true])%list in
     when World
       ((delayMilliseconds >? 0)%Z && (Z.of_nat i <? Z.of_nat count - 1)%Z)
       (emit World (SetTimeout delayMilliseconds)) ;;;
     ret World results')
    (fun ex =>
       let results' :=
         (results ++ [mkCheckResult data None (Some (err_message ex)) false])%list in
       emit World (ConsoleLog
         ("Error checking " ++ DataNumber data ++ ": " ++ err_message ex)) ;;;
       ret World results').

Fixpoint batch_loop (count : nat) (delayMilliseconds : Z) (i : nat)
    (rest : list NumberData) (results : list CheckResult)
  : M World (list CheckResult) :=
  match rest with
  | [] => ret World results
  | data :: rest' =>
      results' <- iteration count delayMilliseconds i data results ;;
      batch_loop count delayMilliseconds (S i) rest' results'
  end.

(** [CheckMultipleNumbersAsync(numbersData, delayMilliseconds = 1000)]. *)
Definition CheckMultipleNumbersAsync (numbersData : list NumberData)
    (delayMilliseconds : option Z) : M World (list CheckResult) :=
  let delayMilliseconds :=
    match delayMilliseconds with Some d => d | None => 1000%Z end in
  batch_loop (length numbersData) delayMilliseconds 0 numbersData [].

(** The lookups of a batch, each in the world its predecessor left. *)
Fixpoint lookups (items : list NumberData) (w : World)
  : list (Completion (option WhatsAppResponse)) :=
  match items with
  | [] => []
  | data :: items' =>
      let r := CheckNumberAsync (DataNumber data) (Country data) (Callback data) w in
      value r :: lookups items' (final r)
  end.

End Client.

(** What the [catch] clauses of [CheckNumberAsync] throw for [ex]. *)
Definition rethrown (ex : JsError) : JsError :=
  if is_a "HttpRequestException" ex then
    Exception ("Request failed: " ++ err_message ex)
  else if is_a "JsonException" ex then
    Exception ("JSON parsing error: " ++ err_message ex)
  else ex.

(** The result a lookup should leave in the list. *)
Definition entry_of (data : NumberData)
    (c : Completion (option WhatsAppResponse)) : CheckResult :=
  match c with
  | Return result => mkCheckResult data result None true
  | Throw ex => mkCheckResult data None (Some (err_message ex)) false
  end.

(** The delays after each lookup of a batch of [count] items, from index
    [i] on. *)
Fixpoint pacing (count : nat) (delayMilliseconds : Z) (i : nat)
    (cs : list (Completion (option WhatsAppResponse))) : list (list Z) :=
  match cs with
  | [] => []
  | c :: cs' =>
      (if is_return c &&
          ((delayMilliseconds >? 0)%Z && (Z.of_nat i <? Z.of_nat count - 1)%Z)
       then [delayMilliseconds] else [])
      :: pacing count delayMilliseconds (S i) cs'
  end.

(** A scripted endpoint, and the framework parameters of a sample run. *)
Definition Script := list PostOutcome.

Definition scripted (s : Script) (req : HttpRequest) : PostOutcome * Script :=
  match s with
  | x :: s' => (x, s')
  | [] => (Faulted (mkError "HttpRequestException" "Connection refused"), [])
  end.

Definition status_line (response : HttpResponseMessage) : string :=
  "Response status code does not indicate success: " ++
  Number_toString (StatusCode response) ++ " (" ++ ReasonPhrase response ++ ").".

Definition found : WhatsAppResponse :=
  mkResponse (Some "OK")
    (Some (mkMessage (Some "+628138800001") (Some "yes")))
    (Some "PAY") (Some "tphxc6te38gpcoyk8hkvwc").

Definition decoded (json : string) : Completion (option WhatsAppResponse) :=
  if json =? "" then Throw (mkError "JsonException" "The input does not contain any JSON tokens.")
  else Return (Some found).

Definition numbersToCheck : list NumberData :=
  [mkData "628138800001" "ID" None; mkData "5511999999999" "BR" None;
   mkData "5215555555555" "MX" None; mkData "919876543210" "IN" None].

End CSharp.

(** * The Node.js variant

    The second class of [src/examples/whatsapp_realtime_checker_javascript.js],
    which posts through [axios] and writes the body with [querystring].  Its
    [checkMultipleNumbers], [formatResult], [getStatistics] and
    [validateCountryCode] are, line by line, those of the browser class.  What
    [response.data] and [error.response.data] hold is a value of a type
    [Data], with [JSON.stringify] on it a parameter. *)
Module Node.

(** The bytes [querystring.escape] leaves as they are: ASCII alphanumerics
    and [!], [-], [.], [_], [~], ['], [(], [)], [*]. *)
Definition noEscape (c : ascii) : bool :=
  is_digit c || is_alpha c ||
  (c =? "!")%char || (c =? "-")%char || (c =? ".")%char || (c =? "_")%char ||
  (c =? "~")%char || (c =? "'")%char || (c =? "(")%char || (c =? ")")%char ||
  (c =? "*")%char.

Definition escape_byte (c : ascii) : string :=
  if noEscape c then String c EmptyString
  else String "%" (String (hex_digit (nat_of_ascii c / 16))
                  (String (hex_digit (nat_of_ascii c mod 16)) EmptyString)).

Fixpoint escape (s : string) : string :=
  match s with
  | EmptyString => EmptyString
  | String c s' => escape_byte c ++ escape s'
  end.

(** [qs.stringify] on an object with string values, given as its
    properties in insertion order. *)
Definition stringify (obj : list (string * string)) : string :=
  String.concat "&" (map (fun kv => escape (fst kv) ++ "=" ++ escape (snd kv)) obj).

(** The [data] object of [checkNumber]. *)
Definition data_of (number country : string) (callback : option string)
  : list (string * string) :=
  let data := [("number", number); ("country", toUpperCase country)] in
  match callback with
  | Some cb => if truthy callback then (data ++ [("callback", cb)])%list else data
  | None => data
  end.

Section Client.

Variable World : Type.
Variable Data : Type.
Variable JSON_stringify : Data -> string.

(** The [response] property of the error [axios] rejects with. *)
Record ErrorResponse := mkErrorResponse {
  response_status : Z;
  response_data : Data
}.

(** What [this.client.post] settles to: fulfilled, for a status that the
    client accepts, with the response and its [data]; or rejected with an
    error that holds the response when one was received. *)
Inductive PostOutcome :=
| Fulfilled (data : Data)
| PostRejected (error : JsError) (response : option ErrorResponse).

Variable post : World -> HttpRequest -> PostOutcome * World.
Variable this : Checker.

(** The request of [this.client.post(this.baseUrl, qs.stringify(data))]
    through the instance made by the constructor. *)
Definition request_of (number country : string) (callback : option string)
  : HttpRequest :=
  mkRequest (baseUrl this) "POST"
    [("Content-Type", "application/x-www-form-urlencoded");
     ("X-API-Key", apiKey this)]
    (stringify (data_of number country callback)).

Definition checkNumber (number country : string) (callback : option string)
  : M World Data := fun w =>
  let req := request_of number country callback in
  let (o, w') := post w req in
  let outcome :=
    match o with
    | Fulfilled data => Return data
    | PostRejected error (Some response) =>
        Throw (mkError "Error"
                 ("HTTP error! status: " ++ Number_toString (response_status response) ++
                  ", message: " ++ JSON_stringify (response_data response)))
    | PostRejected error None => Throw error
    end in
  mkRun outcome w' [FetchCall req].

End Client.

Arguments Fulfilled {Data} data.
Arguments PostRejected {Data} error response.
Arguments mkErrorResponse {Data}.
Arguments response_status {Data}.
Arguments response_data {Data}.

Definition validatePhoneNumber (number country : string) : bool :=
  let cleanNumber := replace_non_digits number in
  if (String.length cleanNumber <? 8)%nat || (15 <? String.length cleanNumber)%nat
  then false
  else true.

End Node.

(** * Sample exchanges *)

(** The batch of the usage example of the repository. *)
Definition numbersToCheck : list NumberData :=
  [mkData "628138800001" "ID" None;
   mkData "5511999999999" "BR" None;
   mkData "5215555555555" "MX" None;
   mkData "919876543210" "IN" None].

Definition checker : Checker := new_WhatsAppRealtimeChecker "YOUR_API_KEY".

(** The "WhatsApp Account Found" response of the README. *)
Definition found : ResultObj :=
  mkResult (Some "OK")
    (Some (mkMessage (Some "+628138800001") (Some "yes")))
    (Some "PAY") (Some "tphxc6te38gpcoyk8hkvwc") None.

Definition dquote : string := String (ascii_of_nat 34) EmptyString.

Definition jstr (s : string) : string := dquote ++ s ++ dquote.

Definition found_text : string :=
  "{" ++ jstr "status" ++ ":" ++ jstr "OK" ++ "," ++
  jstr "message" ++ ":{" ++ jstr "number" ++ ":" ++ jstr "+628138800001" ++ "," ++
  jstr "whatsapp" ++ ":" ++ jstr "yes" ++ "}," ++
  jstr "pricingStrategy" ++ ":" ++ jstr "PAY" ++ "," ++
  jstr "transactionId" ++ ":" ++ jstr "tphxc6te38gpcoyk8hkvwc" ++ "}".

Definition answer_found : HttpResponse := mkResponse 200 found_text (Return found).

(** A 2xx answer whose [status] is none of the four documented values. *)
Definition unlisted : ResultObj := mkResult (Some "MAINTENANCE") None None None None.

Definition answer_unlisted : HttpResponse :=
  mkResponse 200 ("{" ++ jstr "status" ++ ":" ++ jstr "MAINTENANCE" ++ "}")
    (Return unlisted).

(** A 500 answer with a plain-text body, which is not JSON. *)
Definition answer_500 (body : string) : HttpResponse :=
  mkResponse 500 body
    (Throw (mkError "SyntaxError" "Unexpected token in JSON at position 0")).

(** * Further vocabulary and samples *)





(** A byte that a form decoder reads as itself and that ends neither a
    name nor a value. *)
Definition wire_plain (c : ascii) : bool :=
  negb ((c =? "+") || (c =? "%") || (c =? "&") || (c =? "=") || (c =? " "))%char.

(** The three ways a form encoder writes a byte: [+] for a space, the byte
    itself, or [%] and two upper-case hexadecimal digits. *)
Definition escapes_bytes (esc : ascii -> string) : Prop :=
  forall c,
    (c = " "%char /\ esc c = "+") \/
    (wire_plain c = true /\ esc c = String c EmptyString) \/
    esc c = String "%" (String (hex_digit (nat_of_ascii c / 16))
                       (String (hex_digit (nat_of_ascii c mod 16)) EmptyString)).

(** * The page of the browser file

    The functions [checkSingleNumber] and [checkBulkNumbers] behind the two
    buttons.  The page is the record of what they read (the [value] of the
    five inputs) and what they write ([statusDiv.innerHTML],
    [resultsDiv.style.display], [resultsContent.innerHTML]); a handler
    takes the page it finds to the page it leaves.  [String.prototype.trim],
    [parseInt] (with [None] for [NaN]) and [JSON.stringify(v, null, 2)] are
    parameters. *)

Record Page := mkPage {
  api_key : string;
  single_number : string;
  single_country : string;
  bulk_numbers : string;
  delay_input : string;
  status_innerHTML : string;
  results_display : string;
  results_content_innerHTML : string
}.

Definition set_status (p : Page) (html : string) : Page :=
  mkPage (api_key p) (single_number p) (single_country p) (bulk_numbers p)
    (delay_input p) html (results_display p) (results_content_innerHTML p).

Definition set_display (p : Page) (display : string) : Page :=
  mkPage (api_key p) (single_number p) (single_country p) (bulk_numbers p)
    (delay_input p) (status_innerHTML p) display (results_content_innerHTML p).

Definition set_content (p : Page) (html : string) : Page :=
  mkPage (api_key p) (single_number p) (single_country p) (bulk_numbers p)
    (delay_input p) (status_innerHTML p) (results_display p) html.

Definition nl : string := String (ascii_of_nat 10) EmptyString.

(** [<span style="color: c;">text</span>], the markup of the status line. *)
Definition span (color text : string) : string :=
  "<span style=" ++ dquote ++ "color: " ++ color ++ ";" ++ dquote ++ ">" ++
  text ++ "</span>".

(** A property inside a template literal: an absent one prints as
    [undefined]. *)
Definition interpolate (v : option string) : string :=
  match v with
  | Some s => s
  | None => "undefined"
  end.

(** The status the [catch] clause of either handler writes. *)
Definition error_status (e : JsError) : string :=
  span "red" ("Error: " ++ err_message e).

Section Page.

Variable World : Type.
Variable fetch : World -> HttpRequest -> FetchOutcome * World.
Variable JSON_stringify : ResultObj -> string.
Variable JSON_stringify_pretty : ResultObj -> string.
Variable trim : string -> string.
Variable parseInt : string -> option Z.

Notation "x <- m ;; k" := (bind World m (fun x => k))
  (at level 61, m at next level, right associativity).


(** The [for (const line of lines)] loop of [checkBulkNumbers]. *)
Fixpoint parse_lines (lines : list string) (numbersData : list NumberData)
  : list NumberData :=
  match lines with
  | [] => numbersData
  | line :: rest =>
      let parts := split "," line in
      parse_lines rest
        (if (2 <=? length parts)%nat then
           (numbersData ++
            [mkData (trim (nth 0 parts "")) (trim (nth 1 parts "")) None])%list
         else numbersData)
  end.

(** The [results.forEach] of [checkBulkNumbers], from index [i] on. *)
Fixpoint render_results (i : nat) (results : list Outcome) (resultsHtml : string)
  : string :=
  match results with
  | [] => resultsHtml
  | r :: rest =>
      let inputData := input r in
      render_results (S i) rest
        (if success r then
           let formatted := formatResult JSON_stringify (result r) in
           resultsHtml ++
            "<p>" ++ Number_toString (Z.of_nat i + 1) ++ ". " ++ formatted ++
            "</p>"
         else
           resultsHtml ++
            "<p style=" ++ dquote ++ "color: red;" ++ dquote ++ ">" ++
            Number_toString (Z.of_nat i + 1) ++ ". Error for " ++
            in_number inputData ++ " (" ++ in_country inputData ++ "): " ++
            interpolate (error (result r)) ++ "</p>")
  end.

(** [parseInt(...) || 1000]: [NaN] and zero are falsy. *)
Definition delay_of (text : string) : Z :=
  match parseInt text with
  | Some d => if (d =? 0)%Z then 1000%Z else d
  | None => 1000%Z
  end.

Definition checkBulkNumbers (page : Page) : M World Page :=
  let apiKey := api_key page in
  let bulkText := bulk_numbers page in
  let delay := delay_of (delay_input page) in
  if apiKey =? "" then
    ret World (set_status page (span "red" "Please enter your API key"))
  else if trim bulkText =? "" then
    ret World (set_status page (span "red" "Please enter phone numbers"))
  else
    let lines := split (ascii_of_nat 10) (trim bulkText) in
    let numbersData := parse_lines lines [] in
    if (length numbersData =? 0)%nat then
      ret World (set_status page (span "red" "No valid number,country pairs found"))
    else
      let checker := new_WhatsAppRealtimeChecker apiKey in
      let page := set_status page
          ("Checking " ++ Number_toString (Z.of_nat (length numbersData)) ++
           " numbers...") in
      let page := set_display page "none" in
      try_catch World
        (results <- checkMultipleNumbers World fetch checker numbersData (Some delay) ;;
         let stats := getStatistics results in
         let page := set_status page (span "green" "Bulk check completed!") in
         let resultsHtml :=
          nl ++ "            <h4>Bulk Check Results:</h4>" ++ nl ++
          "            <div style=" ++ dquote ++ "margin-bottom: 15px;" ++
          dquote ++ ">" ++ nl ++
          "                <strong>Statistics:</strong>" ++ nl ++
          "                Total: " ++ Number_toString (total stats) ++
          ", " ++ nl ++ "                Successful: " ++
          Number_toString (successful stats) ++ ", " ++ nl ++
          "                Failed: " ++ Number_toString (failed stats) ++
          ", " ++ nl ++ "                WhatsApp Yes: " ++
          Number_toString (whatsappYes stats) ++ ", " ++ nl ++
          "                WhatsApp No: " ++
          Number_toString (whatsappNo stats) ++ nl ++ "            </div>" ++
          nl ++ "            <div style=" ++ dquote ++
          "max-height: 400px; overflow-y: auto;" ++ dquote ++ ">" ++ nl ++
          "        " in
         let resultsHtml := render_results 0 results resultsHtml in
         let resultsHtml := resultsHtml ++ "</div>" in
         let page := set_content page resultsHtml in
         let page := set_display page "block" in
         ret World page)
        (fun e => ret World (set_status page (error_status e))).

End Page.

(** Reading a line of the bulk text by its commas: whether it holds one,
    and the pair made of the text before the first comma and the text
    between the first and the second (or the end). *)
Fixpoint contains (c : ascii) (s : string) : bool :=
  match s with
  | EmptyString => false
  | String c' s' => (c' =? c)%char || contains c s'
  end.

Definition pair_of (trim : string -> string) (line : string) : NumberData :=
  let (number, rest) := cut "," line in
  let (country, _) := cut "," rest in
  mkData (trim number) (trim country) None.


(** The pairs a press of the bulk button has looked up: none when a guard
    stops the handler. *)
Definition bulk_items (trim : string -> string) (page : Page) : list NumberData :=
  if api_key page =? "" then []
  else if trim (bulk_numbers page) =? "" then []
  else parse_lines trim (split (ascii_of_nat 10) (trim (bulk_numbers page))) [].

(** Stand-ins for [trim] and [parseInt] on the texts of the sample pages:
    no white space to trim, and a short table of numerals. *)
Definition trim_nothing (s : string) : string := s.

Definition parseInt_sample (s : string) : option Z :=
  if s =? "0" then Some 0%Z
  else if s =? "1000" then Some 1000%Z
  else if s =? "250" then Some 250%Z
  else None.

Definition sample_page (delay : string) : Page :=
  mkPage "YOUR_API_KEY" "628138800001" "ID"
    ("628138800001,ID" ++ nl ++ "not a pair" ++ nl ++ "5511999999999,BR,extra")
    delay "Ready to check WhatsApp numbers..." "none" "".


(** * Tactics *)

(** Case analysis on the eight bits of a byte. *)
Ltac each_byte c := destruct c as [[] [] [] [] [] [] [] []].

(** The disjunct of [escapes_bytes] that a given byte falls under. *)
Ltac pick_escape :=
  first [ left; split; reflexivity
        | right; left; split; reflexivity
        | right; right; reflexivity ].

(** * Properties *)

(** ** Statistics *)

Lemma filter_whatsapp_is_count (v : string) (l : list Outcome) :
  length (filter (whatsapp_is v) l) = count_answer v l.
Proof.
  induction l as [|o l IH]; simpl; [reflexivity|].
  unfold whatsapp_is at 1, whatsapp_field.
  destruct (success o); simpl; [|exact IH].
  destruct (message (result o)) as [m|]; simpl; [|exact IH].
  destruct (msg_whatsapp m) as [s|]; simpl; [|exact IH].
  destruct (s =? v); simpl; congruence.
Qed.

Lemma whatsapp_is_success (v : string) (o : Outcome) :
  whatsapp_is v o = true -> success o = true.
Proof.
  unfold whatsapp_is. destruct (success o); simpl; [reflexivity|discriminate].
Qed.

Lemma whatsapp_is_exclusive (o : Outcome) :
  whatsapp_is "yes" o = true -> whatsapp_is "no" o = true -> False.
Proof.
  unfold whatsapp_is.
  destruct (success o), (message (result o)) as [m|]; simpl; try discriminate.
  destruct (msg_whatsapp m) as [s|]; simpl; try discriminate.
  intros Hy Hn. apply String.eqb_eq in Hy, Hn. congruence.
Qed.

Lemma yes_no_within_successful (l : list Outcome) :
  length (filter (whatsapp_is "yes") l) + length (filter (whatsapp_is "no") l)
  <= length (filter success l).
Proof.
  induction l as [|o l IH]; simpl; [lia|].
  pose proof (whatsapp_is_success "yes" o) as Hy.
  pose proof (whatsapp_is_success "no" o) as Hn.
  pose proof (whatsapp_is_exclusive o) as Hx.
  destruct (whatsapp_is "yes" o), (whatsapp_is "no" o), (success o);
    simpl; try lia;
    try (exfalso; apply Hx; reflexivity);
    try (specialize (Hy eq_refl); discriminate);
    try (specialize (Hn eq_refl); discriminate).
Qed.

Lemma filter_length_perm {A} (f : A -> bool) (l l' : list A) :
  Permutation l l' -> length (filter f l) = length (filter f l').
Proof.
  induction 1 as [|x l l' _ IH|x y l|l l' l'' _ IH1 _ IH2]; simpl.
  - reflexivity.
  - destruct (f x); simpl; congruence.
  - destruct (f x), (f y); reflexivity.
  - congruence.
Qed.

Lemma in_neither_tally_not_counted (v : string) (o : Outcome) :
  whatsapp_field o <> Some v -> whatsapp_is v o = false.
Proof.
  unfold whatsapp_is, whatsapp_field. intros H.
  destruct (success o); simpl; [|reflexivity].
  destruct (message (result o)) as [m|]; [|reflexivity].
  destruct (msg_whatsapp m) as [s|]; simpl; [|reflexivity].
  apply String.eqb_neq. congruence.
Qed.

(** C3: the statistics of [getStatistics]: [total] is the length of the
    list, [successful + failed = total], [whatsappYes + whatsappNo <=
    successful], [whatsappYes] and [whatsappNo] count exactly the successful
    outcomes whose [whatsapp] field is ["yes"], respectively ["no"], and a
    successful outcome whose [whatsapp] value is missing or unexpected,
    wherever it stands in the list, changes neither tally. *)
Theorem getStatistics_invariants (results : list Outcome) :
  let s := getStatistics results in
  total s = Z.of_nat (length results) /\
  successful s = Z.of_nat (length (filter success results)) /\
  (successful s + failed s = total s)%Z /\
  (0 <= failed s)%Z /\
  (whatsappYes s + whatsappNo s <= successful s)%Z /\
  whatsappYes s = Z.of_nat (count_answer "yes" results) /\
  whatsappNo s = Z.of_nat (count_answer "no" results) /\
  (forall before after o,
      results = (before ++ o :: after)%list ->
      in_neither_tally o ->
      whatsappYes s = whatsappYes (getStatistics (before ++ after)) /\
      whatsappNo s = whatsappNo (getStatistics (before ++ after)) /\
      successful s = (successful (getStatistics (before ++ after)) + 1)%Z).
Proof.
  cbv zeta. unfold getStatistics; simpl.
  pose proof (filter_length_le success results) as Hle.
  pose proof (yes_no_within_successful results) as Hyn.
  split; [reflexivity|]. split; [reflexivity|].
  split; [lia|]. split; [lia|]. split; [lia|].
  split; [now rewrite filter_whatsapp_is_count|].
  split; [now rewrite filter_whatsapp_is_count|].
  intros before after o -> (Hs & Hy & Hn).
  rewrite !filter_app; simpl.
  rewrite (in_neither_tally_not_counted "yes" o Hy),
          (in_neither_tally_not_counted "no" o Hn), Hs.
  rewrite !length_app; simpl.
  repeat split; lia.
Qed.

(** C9: [getStatistics] is invariant under permutation of the outcomes. *)
Theorem getStatistics_permutation (results results' : list Outcome) :
  Permutation results results' ->
  getStatistics results = getStatistics results'.
Proof.
  intros H. unfold getStatistics.
  rewrite (Permutation_length H).
  rewrite (filter_length_perm success _ _ H).
  rewrite (filter_length_perm (whatsapp_is "yes") _ _ H).
  rewrite (filter_length_perm (whatsapp_is "no") _ _ H).
  reflexivity.
Qed.

(** ** Formatting *)

Lemma or_else_shows (field : option string) (sentinel : string) :
  shows field sentinel (or_else field sentinel).
Proof.
  split.
  - intros ->. reflexivity.
  - intros s -> Hs. simpl. apply String.eqb_neq in Hs. now rewrite Hs.
Qed.

Lemma strict_eq_true (v : option string) (lit : string) :
  strict_eq v lit = true <-> v = Some lit.
Proof.
  destruct v as [s|]; simpl.
  - rewrite String.eqb_eq. split; congruence.
  - split; discriminate.
Qed.

Lemma strict_eq_false (v : option string) (lit : string) :
  strict_eq v lit = false <-> v <> Some lit.
Proof.
  rewrite <- strict_eq_true. destruct (strict_eq v lit); split; congruence.
Qed.

(** The example of the specification. *)
Example formatResult_example (stringify : ResultObj -> string) :
  formatResult stringify
    (mkResult (Some "OK")
       (Some (mkMessage (Some "+628138800001") (Some "yes")))
       (Some "PAY") (Some "tphxc6te38gpcoyk8hkvwc") None)
  = "Number: +628138800001, WhatsApp: yes, Transaction ID: tphxc6te38gpcoyk8hkvwc".
Proof. reflexivity. Qed.

(** The browser [formatResult] always yields a string.  When [status] is
    ["OK"] it renders the number, the whatsapp answer and the transaction
    id, with ["Unknown"], ["Unknown"] and ["N/A"] standing in for a missing
    field; in particular a response without [message] renders both as
    ["Unknown"].  Otherwise it renders the status and the serialized
    response. *)
Lemma formatResult_renders (stringify : ResultObj -> string) (r : ResultObj) :
  (status r = Some "OK" ->
     exists number answer tid,
       formatResult stringify r =
         "Number: " ++ number ++ ", WhatsApp: " ++ answer ++
         ", Transaction ID: " ++ tid /\
       shows (number_field r) "Unknown" number /\
       shows (answer_field r) "Unknown" answer /\
       shows (transactionId r) "N/A" tid) /\
  (status r = Some "OK" -> message r = None ->
     exists tid,
       formatResult stringify r =
         "Number: Unknown, WhatsApp: Unknown, Transaction ID: " ++ tid /\
       shows (transactionId r) "N/A" tid) /\
  (status r <> Some "OK" ->
     exists st,
       formatResult stringify r =
         "Status: " ++ st ++ ", Error: " ++ stringify r /\
       shows (status r) "Unknown" st).
Proof.
  unfold formatResult.
  split; [|split].
  - intros H. apply strict_eq_true in H. rewrite H.
    exists (or_else (number_field r) "Unknown"),
           (or_else (answer_field r) "Unknown"),
           (or_else (transactionId r) "N/A").
    split.
    + unfold number_field, answer_field. destruct (message r); reflexivity.
    + repeat split; apply or_else_shows.
  - intros H Hm. apply strict_eq_true in H. rewrite H, Hm.
    exists (or_else (transactionId r) "N/A").
    split; [reflexivity|]. apply or_else_shows.
  - intros H. apply strict_eq_false in H. rewrite H.
    exists (or_else (status r) "Unknown").
    split; [reflexivity|]. apply or_else_shows.
Qed.

(** ** Validation helpers *)

Lemma replace_non_digits_length (s : string) :
  String.length (replace_non_digits s) = digit_count s.
Proof.
  induction s as [|c s IH]; simpl; [reflexivity|].
  destruct (is_digit c); simpl; congruence.
Qed.

(** C10: [validatePhoneNumber] does not look at [country]: its answer is
    [true] exactly when the number has between 8 and 15 decimal digits, the
    other characters being stripped. *)
Theorem validatePhoneNumber_ignores_country (number country country' : string) :
  validatePhoneNumber number country = validatePhoneNumber number country' /\
  String.length (replace_non_digits number) = digit_count number /\
  (validatePhoneNumber number country = true <->
   8 <= digit_count number <= 15).
Proof.
  unfold validatePhoneNumber. rewrite replace_non_digits_length.
  split; [reflexivity|]. split; [reflexivity|].
  rewrite andb_true_iff, !Nat.leb_le. reflexivity.
Qed.

(** ** The form-encoded payload *)

Lemma string_app_assoc (a b c : string) : (a ++ b) ++ c = a ++ (b ++ c).
Proof. induction a as [|x a IH]; simpl; congruence. Qed.

Lemma string_app_nil_r (a : string) : a ++ "" = a.
Proof. induction a as [|x a IH]; simpl; congruence. Qed.


Lemma hex_digits_of_byte (c : ascii) :
  let h := hex_digit (nat_of_ascii c / 16) in
  let l := hex_digit (nat_of_ascii c mod 16) in
  hex_value h = Some (nat_of_ascii c / 16) /\
  hex_value l = Some (nat_of_ascii c mod 16) /\
  ascii_of_nat (16 * (nat_of_ascii c / 16) + nat_of_ascii c mod 16) = c /\
  (h =? "&")%char = false /\ (h =? "=")%char = false /\
  (l =? "&")%char = false /\ (l =? "=")%char = false.
Proof. each_byte c; vm_compute; repeat split; reflexivity. Qed.

Lemma urldecode_percent (h l : ascii) (rest : string) (a b : nat) :
  hex_value h = Some a -> hex_value l = Some b ->
  urldecode (String "%" (String h (String l rest)))
  = String (ascii_of_nat (16 * a + b)) (urldecode rest).
Proof. intros Ha Hb. simpl. now rewrite Ha, Hb. Qed.






Lemma split_not_nil (sep : ascii) (s : string) : split sep s <> [].
Proof.
  destruct s as [|c s]; simpl; [discriminate|].
  destruct (c =? sep)%char; [discriminate|].
  destruct (split sep s); discriminate.
Qed.

Lemma prepend_empty (l : list string) : l <> [] -> prepend "" l = l.
Proof. destruct l; [congruence|reflexivity]. Qed.

Lemma prepend_prepend (a b : string) (l : list string) :
  prepend a (prepend b l) = prepend (a ++ b) l.
Proof. destruct l; simpl; [|rewrite string_app_assoc]; reflexivity. Qed.













Lemma checkNumber_calls World fetch this number country callback (w : World) :
  fetch_calls (trace (checkNumber World fetch this number country callback w))
  = [request_of this number country callback].
Proof.
  unfold checkNumber, try_catch, bind, await_fetch, when, await_json, throw,
    emit, ret.
  destruct (fetch w (request_of this number country callback)) as [[e|r] w'];
    simpl; [reflexivity|].
  destruct (ok r); simpl; [|reflexivity].
  destruct (res_json r); reflexivity.
Qed.


(** ** The single lookup *)

Section Lookup.

Variable World : Type.
Variable fetch : World -> HttpRequest -> FetchOutcome * World.
Variable this : Checker.

(** What one call of [checkNumber] does, case by case on the answer of the
    endpoint. *)
Lemma checkNumber_run number country callback (w : World) :
  checkNumber World fetch this number country callback w =
  let req := request_of this number country callback in
  match fetch w req with
  | (Rejected e, w') => mkRun (Throw e) w' [FetchCall req; logged e]
  | (Resolved r, w') =>
      if ok r then
        match res_json r with
        | Return v => mkRun (Return v) w' [FetchCall req]
        | Throw e => mkRun (Throw e) w' [FetchCall req; logged e]
        end
      else mkRun (Throw (http_error r)) w' [FetchCall req; logged (http_error r)]
  end.
Proof.
  unfold checkNumber, try_catch, bind, await_fetch, when, await_json, throw,
    emit, ret. cbv zeta.
  destruct (fetch w (request_of this number country callback)) as [[e|r] w'];
    simpl; [reflexivity|].
  destruct (ok r); simpl; [|reflexivity].
  destruct (res_json r); reflexivity.
Qed.

End Lookup.

(** ** The batch *)

Section Batch.

Variable World : Type.
Variable fetch : World -> HttpRequest -> FetchOutcome * World.
Variable this : Checker.

Lemma bind_return {A B} (m : M World A) (k : A -> M World B) (w : World) (a : A) :
  value (m w) = Return a ->
  bind World m k w =
  mkRun (value (k a (final (m w)))) (final (k a (final (m w))))
        (trace (m w) ++ trace (k a (final (m w)))).
Proof. unfold bind. intros ->. reflexivity. Qed.

Lemma lookup_calls (data : NumberData) (w : World) :
  fetch_calls (trace (lookup World fetch this data w)) = [request_for this data].
Proof. apply checkNumber_calls. Qed.

(** One iteration: it never throws, adds the entry of its lookup, and sets a
    timer only after a lookup that returned. *)
Lemma iteration_run n delay i data results (w : World) :
  let r := lookup World fetch this data w in
  let it := iteration World fetch this n delay i data results w in
  value it = Return (results ++ [entry_of data (value r)])%list /\
  final it = final r /\
  exists banner tail,
    trace it = (ConsoleLog banner :: trace r ++ tail)%list /\
    fetch_calls tail = [] /\
    timers tail =
      if is_return (value r) && ((delay >? 0)%Z && (Z.of_nat i <? Z.of_nat n - 1)%Z)
      then [delay] else [].
Proof.
  cbv zeta. unfold iteration, lookup, try_catch, bind, emit,
    when, sleep, ret.
  simpl.
  destruct (checkNumber World fetch this (in_number data) (in_country data)
              (in_callback data) w) as [[v|e] w' t]; simpl.
  - destruct ((delay >? 0)%Z && (Z.of_nat i <? Z.of_nat n - 1)%Z); simpl;
      (split; [reflexivity|split; [reflexivity|]]).
    + eexists _, [SetTimeout delay]. repeat split; reflexivity.
    + eexists _, []. rewrite !app_nil_r. repeat split; reflexivity.
  - split; [reflexivity|split; [reflexivity|]]. eexists _, [_].
    repeat split; reflexivity.
Qed.

Lemma fetch_calls_app (a b : list Event) :
  fetch_calls (a ++ b) = (fetch_calls a ++ fetch_calls b)%list.
Proof.
  induction a as [|[] a IH]; simpl; congruence.
Qed.

Lemma timers_app (a b : list Event) :
  timers (a ++ b) = (timers a ++ timers b)%list.
Proof.
  induction a as [|[] a IH]; simpl; congruence.
Qed.

Lemma split_at_calls_quiet (a b : list Event) (cur : list Z) :
  fetch_calls a = [] ->
  split_at_calls (a ++ b) cur = split_at_calls b (cur ++ timers a).
Proof.
  revert cur. induction a as [|ev a IH]; intros cur H; simpl.
  - now rewrite app_nil_r.
  - destruct ev; simpl in *; try discriminate; rewrite (IH _ H); try reflexivity.
    now rewrite <- app_assoc.
Qed.

(** A lookup starts with its network call; nothing after it is a call or a
    timer. *)
Lemma lookup_trace (data : NumberData) (w : World) :
  exists tl,
    trace (lookup World fetch this data w) = FetchCall (request_for this data) :: tl /\
    fetch_calls tl = [] /\ timers tl = [].
Proof.
  unfold lookup, request_for. rewrite checkNumber_run. cbv zeta.
  destruct (fetch w _) as [[e|r] w']; [eexists; repeat split; reflexivity|].
  destruct (ok r); [destruct (res_json r)|]; eexists; repeat split; reflexivity.
Qed.

Lemma lookups_length (items : list NumberData) (w : World) :
  length (lookups World fetch this items w) = length items.
Proof.
  revert w. induction items as [|d items IH]; intros w; simpl; congruence.
Qed.

Lemma entries_cons (d : NumberData) (items : list NumberData) (w : World) :
  entries World fetch this (d :: items) w =
  entry_of d (value (lookup World fetch this d w))
  :: entries World fetch this items (final (lookup World fetch this d w)).
Proof. reflexivity. Qed.

Lemma entries_length (items : list NumberData) (w : World) :
  length (entries World fetch this items w) = length items.
Proof.
  unfold entries. rewrite length_map, length_combine, lookups_length.
  apply Nat.min_id.
Qed.

Lemma entry_of_input (d : NumberData) (c : Completion ResultObj) :
  input (entry_of d c) = d.
Proof. destruct c; reflexivity. Qed.

Lemma entries_input (items : list NumberData) (w : World) :
  map input (entries World fetch this items w) = items.
Proof.
  revert w. induction items as [|d items IH]; intros w; [reflexivity|].
  rewrite entries_cons. simpl. now rewrite entry_of_input, IH.
Qed.

Lemma entries_nth (items : list NumberData) (w : World) (k : nat) d c :
  nth_error items k = Some d ->
  nth_error (lookups World fetch this items w) k = Some c ->
  nth_error (entries World fetch this items w) k = Some (entry_of d c).
Proof.
  revert w k. induction items as [|d0 items IH]; intros w k Hd Hc.
  - destruct k; discriminate.
  - rewrite entries_cons. destruct k as [|k]; simpl in *.
    + injection Hd as ->. injection Hc as <-. reflexivity.
    + now apply IH.
Qed.

(** The loop never throws: it returns the entries of the lookups, run one
    after the other. *)
Lemma batch_loop_value n delay (rest : list NumberData) :
  forall i results (w : World),
    value (batch_loop World fetch this n delay i rest results w)
    = Return (results ++ entries World fetch this rest w)%list.
Proof.
  induction rest as [|d rest IH]; intros i results w.
  - simpl. now rewrite app_nil_r.
  - cbn [batch_loop].
    destruct (iteration_run n delay i d results w) as (Hv & Hf & _).
    rewrite (bind_return _ _ _ _ Hv). cbn [value].
    rewrite IH, Hf, entries_cons, <- app_assoc. reflexivity.
Qed.

Lemma batch_loop_calls n delay (rest : list NumberData) :
  forall i results (w : World),
    fetch_calls (trace (batch_loop World fetch this n delay i rest results w))
    = map (request_for this) rest.
Proof.
  induction rest as [|d rest IH]; intros i results w; [reflexivity|].
  cbn [batch_loop].
  destruct (iteration_run n delay i d results w)
    as (Hv & Hf & banner & tail & Ht & Hc & _).
  rewrite (bind_return _ _ _ _ Hv). cbn [trace].
  rewrite fetch_calls_app, IH, Ht. cbn [fetch_calls].
  rewrite fetch_calls_app, lookup_calls, Hc. reflexivity.
Qed.

(** The timers of the loop, call by call. *)
Lemma batch_loop_pacing n delay (rest : list NumberData) :
  forall i results (w : World) cur,
    split_at_calls
      (trace (batch_loop World fetch this n delay i rest results w)) cur
    = cur :: pacing n delay i (lookups World fetch this rest w).
Proof.
  induction rest as [|d rest IH]; intros i results w cur; [reflexivity|].
  cbn [batch_loop].
  destruct (iteration_run n delay i d results w)
    as (Hv & Hf & banner & tail & Ht & Hc & Htm).
  rewrite (bind_return _ _ _ _ Hv). cbn [trace].
  destruct (lookup_trace d w) as (tl & Htl & Hc' & Htm').
  rewrite Ht, Htl. cbn [app split_at_calls].
  rewrite split_at_calls_quiet by
    (rewrite fetch_calls_app, Hc', Hc; reflexivity).
  rewrite timers_app, Htm', Htm, IH, Hf. reflexivity.
Qed.

(** C1: [checkMultipleNumbers] returns, for [N] requests, exactly [N]
    outcomes; the [i]-th outcome carries the [i]-th request as its [input]
    and the result of that request's own lookup; and the network calls are
    made one per request, in input order, each lookup starting in the world
    its predecessor left. *)
Theorem checkMultipleNumbers_outcomes (numbersData : list NumberData)
    (delay : option Z) (w : World) :
  let run := checkMultipleNumbers World fetch this numbersData delay w in
  exists outcomes,
    value run = Return outcomes /\
    length outcomes = length numbersData /\
    (forall i, option_map input (nth_error outcomes i) = nth_error numbersData i) /\
    outcomes = entries World fetch this numbersData w /\
    fetch_calls (trace run) = map (request_for this) numbersData.
Proof.
  cbv zeta. unfold checkMultipleNumbers.
  exists (entries World fetch this numbersData w).
  split; [apply batch_loop_value|].
  split; [apply entries_length|].
  split; [|split; [reflexivity|apply batch_loop_calls]].
  intros i. rewrite <- nth_error_map, entries_input. reflexivity.
Qed.

(** C2: when the lookup of the item at position [k] throws, the batch still
    returns one outcome per item; the outcome at [k] is marked unsuccessful
    and holds the message of the thrown error under [error]; and every item,
    those after [k] included, has its network call made and its outcome
    recorded. *)
Theorem failure_is_isolated (numbersData : list NumberData) (delay : option Z)
    (w : World) (k : nat) (e : JsError) :
  nth_error (lookups World fetch this numbersData w) k = Some (Throw e) ->
  let run := checkMultipleNumbers World fetch this numbersData delay w in
  exists outcomes data,
    value run = Return outcomes /\
    length outcomes = length numbersData /\
    nth_error numbersData k = Some data /\
    nth_error outcomes k =
      Some (mkOutcome data
              (mkResult None None None None (Some (err_message e))) false) /\
    length (fetch_calls (trace run)) = length numbersData /\
    (forall j d, k < j -> nth_error numbersData j = Some d ->
       nth_error (fetch_calls (trace run)) j = Some (request_for this d) /\
       exists o, nth_error outcomes j = Some o /\ input o = d).
Proof.
  intros Hk. cbv zeta. unfold checkMultipleNumbers.
  assert (Hlt : k < length numbersData).
  { rewrite <- (lookups_length numbersData w). apply nth_error_Some. congruence. }
  destruct (nth_error numbersData k) as [data|] eqn:Hd;
    [|apply nth_error_None in Hd; lia].
  exists (entries World fetch this numbersData w), data.
  rewrite batch_loop_calls, length_map.
  split; [apply batch_loop_value|].
  split; [apply entries_length|].
  split; [reflexivity|].
  split; [apply (entries_nth _ _ _ _ _ Hd Hk)|].
  split; [reflexivity|].
  intros j d _ Hj. split; [now apply map_nth_error|].
  destruct (nth_error (lookups World fetch this numbersData w) j) as [c|] eqn:Hc.
  - exists (entry_of d c). split; [now apply entries_nth|apply entry_of_input].
  - apply nth_error_None in Hc. rewrite lookups_length in Hc.
    assert (j < length numbersData) by (apply nth_error_Some; congruence). lia.
Qed.

End Batch.

(** A run of the usage example in which the second lookup is answered with
    a 500: the batch goes on. *)
Lemma failure_is_isolated_example :
  let script := [Resolved answer_found; Resolved (answer_500 "Internal Server Error");
                 Resolved answer_found; Resolved answer_found] in
  let run := checkMultipleNumbers Script scripted checker numbersToCheck (Some 0%Z) script in
  exists outcomes data,
    value run = Return outcomes /\
    length outcomes = length numbersToCheck /\
    nth_error numbersToCheck 1 = Some data /\
    nth_error outcomes 1 =
      Some (mkOutcome data
              (mkResult None None None None (Some "HTTP error! status: 500")) false) /\
    length (fetch_calls (trace run)) = length numbersToCheck /\
    (forall j d, 1 < j -> nth_error numbersToCheck j = Some d ->
       nth_error (fetch_calls (trace run)) j = Some (request_for checker d) /\
       exists o, nth_error outcomes j = Some o /\ input o = d).
Proof.
  exact (failure_is_isolated Script scripted checker numbersToCheck (Some 0%Z)
           [Resolved answer_found; Resolved (answer_500 "Internal Server Error");
            Resolved answer_found; Resolved answer_found]
           1 (mkError "Error" "HTTP error! status: 500") eq_refl).
Defined.

(** Two orders of the same three outcomes. *)
Lemma getStatistics_permutation_example :
  getStatistics
    [success_entry (mkData "1" "ID" None) found;
     failure_entry (mkData "2" "BR" None) (mkError "Error" "HTTP error! status: 500");
     success_entry (mkData "3" "MX" None) unlisted]
  = getStatistics
    [failure_entry (mkData "2" "BR" None) (mkError "Error" "HTTP error! status: 500");
     success_entry (mkData "3" "MX" None) unlisted;
     success_entry (mkData "1" "ID" None) found].
Proof.
  apply getStatistics_permutation.
  apply Permutation_cons_app with (l1 := [_; _]) (l2 := []).
  apply Permutation_refl.
Defined.

(** ** What a single lookup returns *)

(** C4, as the code has it: [checkNumber] either fails, with the error
    [fetch] rejected with, with [Error("HTTP error! status: N")] for an
    answer outside 200..299, or with the error [response.json()] throws, or
    it returns exactly the value decoded from the body of a 2xx answer.  The
    [status] of that value is not inspected. *)
Theorem checkNumber_returns_decoded_body (World : Type)
    (fetch : World -> HttpRequest -> FetchOutcome * World) (this : Checker)
    (number country : string) (callback : option string) (w : World) :
  let req := request_of this number country callback in
  let run := checkNumber World fetch this number country callback w in
  final run = snd (fetch w req) /\
  match fst (fetch w req) with
  | Rejected e => value run = Throw e
  | Resolved r =>
      if ok r then value run = res_json r
      else value run = Throw (http_error r)
  end /\
  (forall v, value run = Return v ->
     exists r, fst (fetch w req) = Resolved r /\ ok r = true /\
               res_json r = Return v).
Proof.
  cbv zeta. rewrite checkNumber_run. cbv zeta.
  destruct (fetch w _) as [[e|r] w']; simpl.
  - repeat split. discriminate.
  - destruct (ok r) eqn:Hok; [destruct (res_json r) eqn:Hj|]; simpl;
      repeat split; try discriminate.
    intros v [= <-]. exists r. now rewrite Hok, Hj.
Qed.

(** A 2xx answer with an undocumented [status] is returned as it is. *)
Lemma checkNumber_unlisted_status :
  value (checkNumber Script scripted checker "628138800001" "ID" None
           [Resolved answer_unlisted])
  = Return unlisted /\
  ~ enumerated (status unlisted).
Proof.
  split; [reflexivity|].
  unfold enumerated, unlisted; simpl. intuition discriminate.
Qed.

(** C5 at a 500 answer: the thrown error holds the status code only.  Two
    answers with different bodies give the same error, and the body is not
    decoded (the [SyntaxError] of [response.json()] never shows). *)
Lemma checkNumber_error_omits_body :
  value (checkNumber Script scripted checker "628138800001" "ID" None
           [Resolved (answer_500 "Internal Server Error")])
  = Throw (mkError "Error" "HTTP error! status: 500") /\
  value (checkNumber Script scripted checker "628138800001" "ID" None
           [Resolved (answer_500 "upstream request timeout")])
  = Throw (mkError "Error" "HTTP error! status: 500").
Proof. split; reflexivity. Qed.

(** The part of C5 the browser client does satisfy: outside 200..299 it
    throws an [Error] naming the status, whatever the body and whatever
    decoding it would give; inside, it returns what decoding gives, a decode
    failure being the distinct error of [response.json()]. *)
Lemma checkNumber_by_status (World : Type)
    (fetch : World -> HttpRequest -> FetchOutcome * World) (this : Checker)
    (number country : string) (callback : option string) (w : World)
    (r : HttpResponse) :
  fst (fetch w (request_of this number country callback)) = Resolved r ->
  value (checkNumber World fetch this number country callback w) =
    if ok r then res_json r
    else Throw (mkError "Error"
                  ("HTTP error! status: " ++ Number_toString (res_status r))).
Proof.
  intros H. rewrite checkNumber_run. cbv zeta.
  destruct (fetch w _) as [[e|r'] w']; simpl in H; [discriminate|].
  injection H as ->.
  destruct (ok r); [destruct (res_json r)|]; reflexivity.
Qed.

(** ** Pacing *)

(** The timers of a batch run by the browser client, call by call: after
    the [k]-th call a timer is set only when that lookup returned, the delay
    is positive and the call is not the last. *)
Lemma checkMultipleNumbers_pacing (World : Type)
    (fetch : World -> HttpRequest -> FetchOutcome * World) (this : Checker)
    (numbersData : list NumberData) (delay : Z) (w : World) :
  split_at_calls
    (trace (checkMultipleNumbers World fetch this numbersData (Some delay) w)) []
  = [] :: pacing (length numbersData) delay 0
            (lookups World fetch this numbersData w).
Proof. apply batch_loop_pacing. Qed.

(** C7 at a batch of two with a delay of 1000 ms whose first lookup is
    answered with a 500: both calls are made and no timer is set between
    them.  When the first lookup succeeds the timer is there. *)
Lemma no_delay_after_failed_lookup :
  let items := [mkData "628138800001" "ID" None; mkData "5511999999999" "BR" None] in
  let failing := checkMultipleNumbers Script scripted checker items (Some 1000%Z)
                   [Resolved (answer_500 "Internal Server Error"); Resolved answer_found] in
  let passing := checkMultipleNumbers Script scripted checker items (Some 1000%Z)
                   [Resolved answer_found; Resolved answer_found] in
  length (fetch_calls (trace failing)) = 2 /\
  timers_after 1 (trace failing) = [] /\
  timers (trace failing) = [] /\
  timers_after 1 (trace passing) = [1000%Z] /\
  timers_after 2 (trace passing) = [].
Proof. repeat split; reflexivity. Qed.

(** * The Go client *)

Section GoClient.

Variable World : Type.
Variable Do : World -> Go.Request -> Go.Exchange * World.
Variable Unmarshal : string -> Go.WhatsAppResponse + string.
Variable w : Go.WhatsAppRealtimeChecker.

Lemma Go_CheckNumber_events (s : World) (number country callback : string) :
  snd (Go.CheckNumber World Do Unmarshal w s number country callback)
  = [Go.HttpDo (Go.new_request w number country callback)].
Proof.
  unfold Go.CheckNumber. destruct (Do s _) as [x s']. reflexivity.
Qed.

(** The sibling of C5: for a status other than 200 the Go client returns an
    error made of the status code and the raw body, and the body is not
    decoded; for 200 it returns what [json.Unmarshal] gives, a decode
    failure being a different error. *)
Theorem Go_CheckNumber_by_status (s : World) (number country callback : string) :
  let req := Go.new_request w number country callback in
  let r := fst (fst (Go.CheckNumber World Do Unmarshal w s number country callback)) in
  match fst (Do s req) with
  | Go.DoError err => r = inr ("request failed: " ++ err)
  | Go.Response code (inr err) => r = inr ("failed to read response: " ++ err)
  | Go.Response code (inl body) =>
      (code <> 200%Z ->
         r = inr ("HTTP error " ++ Number_toString code ++ ": " ++ body)) /\
      (code = 200%Z ->
         r = match Unmarshal body with
             | inl result => inl result
             | inr err => inr ("failed to decode response: " ++ err)
             end)
  end.
Proof.
  cbv zeta. unfold Go.CheckNumber.
  destruct (Do s _) as [[err|code [body|err]] s']; simpl; try reflexivity.
  destruct (Z.eqb_spec code 200) as [->|Hne]; simpl.
  - split; [congruence|]. intros _. destruct (Unmarshal body); reflexivity.
  - split; [reflexivity|congruence].
Qed.

Lemma Go_batch_loop_results n delayMs (rest : list Go.NumberData) :
  forall i results (s : World),
    let out := fst (fst (Go.batch_loop World Do Unmarshal w n delayMs i rest results s)) in
    length out = length results + length rest /\
    map Go.Input out = (map Go.Input results ++ rest)%list.
Proof.
  induction rest as [|d rest IH]; intros i results s; cbv zeta.
  - simpl. now rewrite Nat.add_0_r, app_nil_r.
  - cbn [Go.batch_loop].
    destruct (Go.CheckNumber World Do Unmarshal w s _ _ _) as [[r s1] ev].
    destruct r as [result|err];
      match goal with
      | |- context [Go.batch_loop World Do Unmarshal w n delayMs (S i) rest ?acc s1] =>
          specialize (IH (S i) acc s1); cbv zeta in IH;
          destruct (Go.batch_loop World Do Unmarshal w n delayMs (S i) rest acc s1)
            as [[out s2] ev3]
      end;
      simpl in *; destruct IH as (Hl & Hm);
      rewrite Hl, Hm, length_app, map_app, <- app_assoc; simpl; split; (lia || reflexivity).
Qed.

Lemma Go_batch_loop_pacing n delayMs (rest : list Go.NumberData) :
  forall i results (s : World) cur,
    Go.split_at_calls
      (snd (Go.batch_loop World Do Unmarshal w n delayMs i rest results s)) cur
    = cur :: Go.pacing n delayMs i (length rest).
Proof.
  induction rest as [|d rest IH]; intros i results s cur; [reflexivity|].
  cbn [Go.batch_loop].
  pose proof (Go_CheckNumber_events s (Go.DataNumber d) (Go.Country d) (Go.Callback d)) as Hev.
  destruct (Go.CheckNumber World Do Unmarshal w s _ _ _) as [[r s1] ev].
  simpl in Hev. subst ev.
  destruct r as [result|err];
    match goal with
    | |- context [Go.batch_loop World Do Unmarshal w n delayMs (S i) rest ?acc s1] =>
        pose proof (IH (S i) acc s1) as IH';
        destruct (Go.batch_loop World Do Unmarshal w n delayMs (S i) rest acc s1)
          as [[out s2] ev3]
    end;
    simpl in IH'; simpl;
    destruct ((delayMs >? 0)%Z && (Z.of_nat i <? Z.of_nat n - 1)%Z); simpl;
    rewrite IH'; reflexivity.
Qed.

Lemma Go_batch_loop_calls n delayMs (rest : list Go.NumberData) :
  forall i results (s : World),
    Go.calls (snd (Go.batch_loop World Do Unmarshal w n delayMs i rest results s))
    = map (fun d => Go.new_request w (Go.DataNumber d) (Go.Country d) (Go.Callback d))
          rest.
Proof.
  induction rest as [|d rest IH]; intros i results s; [reflexivity|].
  cbn [Go.batch_loop].
  pose proof (Go_CheckNumber_events s (Go.DataNumber d) (Go.Country d) (Go.Callback d)) as Hev.
  destruct (Go.CheckNumber World Do Unmarshal w s _ _ _) as [[r s1] ev].
  simpl in Hev. subst ev.
  destruct r as [result|err];
    match goal with
    | |- context [Go.batch_loop World Do Unmarshal w n delayMs (S i) rest ?acc s1] =>
        pose proof (IH (S i) acc s1) as IH';
        destruct (Go.batch_loop World Do Unmarshal w n delayMs (S i) rest acc s1)
          as [[out s2] ev3]
    end;
    simpl in IH'; simpl;
    destruct ((delayMs >? 0)%Z && (Z.of_nat i <? Z.of_nat n - 1)%Z); simpl;
    rewrite IH'; reflexivity.
Qed.


(** The sibling of C1: one result per request, in input order, and one
    call per request, in input order. *)
Theorem Go_CheckMultipleNumbers_results (s : World)
    (numbersData : list Go.NumberData) (delayMs : Z) :
  let run := Go.CheckMultipleNumbers World Do Unmarshal w s numbersData delayMs in
  length (fst (fst run)) = length numbersData /\
  map Go.Input (fst (fst run)) = numbersData /\
  Go.calls (snd run)
  = map (fun d => Go.new_request w (Go.DataNumber d) (Go.Country d) (Go.Callback d))
        numbersData.
Proof.
  cbv zeta. unfold Go.CheckMultipleNumbers.
  destruct (Go_batch_loop_results (length numbersData) delayMs numbersData 0 [] s)
    as (Hl & Hm).
  split; [assumption|]. split; [assumption|]. apply Go_batch_loop_calls.
Qed.


End GoClient.

Lemma Go_count_cons (p : Go.CheckResult -> bool) (r : Go.CheckResult)
    (l : list Go.CheckResult) :
  Go.count p (r :: l) = (Go.count p l + if p r then 1 else 0)%Z.
Proof. unfold Go.count. simpl. destruct (p r); simpl; lia. Qed.

Lemma Go_answers_exclusive (r : Go.CheckResult) :
  Go.answers "yes" r = true -> Go.answers "no" r = true -> False.
Proof.
  unfold Go.answers.
  destruct (Go.Success r), (Go.Result r) as [resp|]; simpl; try discriminate.
  destruct (Go.Message resp) as [m|]; try discriminate.
  intros Hy Hn. apply String.eqb_eq in Hy, Hn. congruence.
Qed.

Lemma Go_tally_fold (l : list Go.CheckResult) :
  forall acc,
    fold_left Go.tally l acc =
    Go.mkStats (Go.Total acc)
      (Go.Successful acc + Go.count Go.Success l)
      (Go.Failed acc + Go.count (fun r => negb (Go.Success r)) l)
      (Go.WhatsAppYes acc + Go.count (Go.answers "yes") l)
      (Go.WhatsAppNo acc + Go.count (Go.answers "no") l).
Proof.
  induction l as [|r l IH]; intros acc.
  - destruct acc. simpl. unfold Go.count. simpl. f_equal; lia.
  - cbn [fold_left]. rewrite IH, !Go_count_cons.
    pose proof (Go_answers_exclusive r) as Hx.
    unfold Go.tally, Go.answers in *.
    destruct (Go.Success r); simpl; [|f_equal; lia].
    destruct (Go.Result r) as [resp|]; simpl; [|f_equal; lia].
    destruct (Go.Message resp) as [m|]; simpl; [|f_equal; lia].
    destruct (Go.WhatsApp m =? "yes") eqn:Hy; simpl.
    + destruct (Go.WhatsApp m =? "no") eqn:Hn; [exfalso; simpl in Hx; auto|].
      f_equal; lia.
    + destruct (Go.WhatsApp m =? "no"); simpl; f_equal; lia.
Qed.

Lemma Go_yes_no_within_successful (l : list Go.CheckResult) :
  (Go.count (Go.answers "yes") l + Go.count (Go.answers "no") l
   <= Go.count Go.Success l)%Z.
Proof.
  induction l as [|r l IH]; [unfold Go.count; simpl; lia|].
  rewrite !Go_count_cons.
  pose proof (Go_answers_exclusive r) as Hx.
  unfold Go.answers in *.
  destruct (Go.Success r); simpl in *; [|lia].
  destruct (Go.Result r) as [resp|]; [|lia].
  destruct (Go.Message resp) as [m|]; [|lia].
  destruct (Go.WhatsApp m =? "yes"), (Go.WhatsApp m =? "no");
    solve [lia | exfalso; auto].
Qed.

(** The sibling of C3 for the counting loop of the Go client. *)
Theorem Go_GetStatistics_invariants (results : list Go.CheckResult) :
  let s := Go.GetStatistics results in
  Go.Total s = Z.of_nat (length results) /\
  Go.Successful s = Go.count Go.Success results /\
  (Go.Successful s + Go.Failed s = Go.Total s)%Z /\
  (Go.WhatsAppYes s + Go.WhatsAppNo s <= Go.Successful s)%Z /\
  Go.WhatsAppYes s = Go.count (Go.answers "yes") results /\
  Go.WhatsAppNo s = Go.count (Go.answers "no") results.
Proof.
  cbv zeta. unfold Go.GetStatistics. rewrite Go_tally_fold. simpl.
  assert (Hsplit : (Go.count Go.Success results +
                    Go.count (fun r => negb (Go.Success r)) results
                    = Z.of_nat (length results))%Z).
  { unfold Go.count. rewrite <- Nat2Z.inj_add, filter_length. reflexivity. }
  pose proof (Go_yes_no_within_successful results) as Hle.
  repeat split; lia.
Qed.

(** The sibling of C9. *)
Theorem Go_GetStatistics_permutation (results results' : list Go.CheckResult) :
  Permutation results results' ->
  Go.GetStatistics results = Go.GetStatistics results'.
Proof.
  intros H. unfold Go.GetStatistics. rewrite !Go_tally_fold. unfold Go.count.
  rewrite (Permutation_length H).
  now rewrite !(filter_length_perm _ _ _ H).
Qed.

Lemma Go_shown_default (field sentinel : string) :
  Go.shown field sentinel (if field =? "" then sentinel else field).
Proof.
  split.
  - intros ->. reflexivity.
  - intros H. apply String.eqb_neq in H. now rewrite H.
Qed.

(** The Go [FormatResult]: the three fields are rendered only for status
    ["OK"] with a [message]; every other response, one with status ["OK"]
    and no [message] included, is rendered as a diagnostic. *)
Lemma Go_FormatResult_renders (Marshal : Go.WhatsAppResponse -> string)
    (g : Go.WhatsAppResponse) :
  (Go.Message g = None ->
     Go.FormatResult Marshal g
     = "Status: " ++ Go.Status g ++ ", Error: " ++ Marshal g) /\
  (Go.Status g <> "OK" ->
     Go.FormatResult Marshal g
     = "Status: " ++ Go.Status g ++ ", Error: " ++ Marshal g) /\
  (forall m, Go.Status g = "OK" -> Go.Message g = Some m ->
     exists number answer tid,
       Go.FormatResult Marshal g =
         "Number: " ++ number ++ ", WhatsApp: " ++ answer ++
         ", Transaction ID: " ++ tid /\
       Go.shown (Go.Number m) "Unknown" number /\
       Go.shown (Go.WhatsApp m) "Unknown" answer /\
       Go.shown (Go.TransactionID g) "N/A" tid).
Proof.
  unfold Go.FormatResult. split; [|split].
  - intros ->. reflexivity.
  - intros H. apply String.eqb_neq in H. rewrite H.
    destruct (Go.Message g); reflexivity.
  - intros m Hs ->. rewrite Hs. cbn [String.eqb Ascii.eqb Bool.eqb].
    eexists _, _, _. split; [reflexivity|].
    repeat split; apply Go_shown_default.
Qed.

(** C6, as the clients have it.  Both always yield a string.  The browser
    client renders the three fields whenever [status] is ["OK"], with
    ["Unknown"], ["Unknown"] and ["N/A"] for missing ones, so a response
    without [message] shows ["Unknown"] twice, and renders the status and
    the serialized response otherwise.  The Go client renders the three
    fields only when [status] is ["OK"] and a [message] is present; a
    response without [message] is rendered as the diagnostic. *)
Theorem formatResult_by_client (stringify : ResultObj -> string)
    (Marshal : Go.WhatsAppResponse -> string)
    (r : ResultObj) (g : Go.WhatsAppResponse) :
  ((status r = Some "OK" ->
      exists number answer tid,
        formatResult stringify r =
          "Number: " ++ number ++ ", WhatsApp: " ++ answer ++
          ", Transaction ID: " ++ tid /\
        shows (number_field r) "Unknown" number /\
        shows (answer_field r) "Unknown" answer /\
        shows (transactionId r) "N/A" tid) /\
   (status r = Some "OK" -> message r = None ->
      exists tid,
        formatResult stringify r =
          "Number: Unknown, WhatsApp: Unknown, Transaction ID: " ++ tid /\
        shows (transactionId r) "N/A" tid) /\
   (status r <> Some "OK" ->
      exists st,
        formatResult stringify r =
          "Status: " ++ st ++ ", Error: " ++ stringify r /\
        shows (status r) "Unknown" st)) /\
  ((Go.Message g = None ->
      Go.FormatResult Marshal g
      = "Status: " ++ Go.Status g ++ ", Error: " ++ Marshal g) /\
   (Go.Status g <> "OK" ->
      Go.FormatResult Marshal g
      = "Status: " ++ Go.Status g ++ ", Error: " ++ Marshal g) /\
   (forall m, Go.Status g = "OK" -> Go.Message g = Some m ->
      exists number answer tid,
        Go.FormatResult Marshal g =
          "Number: " ++ number ++ ", WhatsApp: " ++ answer ++
          ", Transaction ID: " ++ tid /\
        Go.shown (Go.Number m) "Unknown" number /\
        Go.shown (Go.WhatsApp m) "Unknown" answer /\
        Go.shown (Go.TransactionID g) "N/A" tid)).
Proof.
  split; [apply formatResult_renders|apply Go_FormatResult_renders].
Qed.

(** The same response, status ["OK"] and no [message], in both clients:
    ["Unknown"] twice in the browser, a diagnostic in Go. *)
Lemma FormatResult_ok_without_message :
  (forall stringify,
     formatResult stringify (mkResult (Some "OK") None (Some "PAY") (Some "t1") None)
     = "Number: Unknown, WhatsApp: Unknown, Transaction ID: t1") /\
  (forall Marshal,
     Go.FormatResult Marshal (Go.mkResponse "OK" None "PAY" "t1")
     = "Status: OK, Error: " ++ Marshal (Go.mkResponse "OK" None "PAY" "t1")) /\
  (forall Marshal,
     Go.FormatResult Marshal (Go.mkResponse "OK" None "PAY" "t1")
     <> "Number: Unknown, WhatsApp: Unknown, Transaction ID: t1").
Proof.
  split; [reflexivity|]. split; [reflexivity|].
  intros Marshal. simpl. discriminate.
Qed.

Lemma Go_keep_digits (number cleanNumber : string) :
  Go.keep_digits number cleanNumber = cleanNumber ++ replace_non_digits number.
Proof.
  revert cleanNumber. induction number as [|c number IH]; intros acc; simpl.
  - now rewrite string_app_nil_r.
  - rewrite IH. destruct (is_digit c); [|reflexivity].
    now rewrite string_app_assoc.
Qed.

(** The sibling of C10: the Go validator gives the answer of the JavaScript
    one, whatever the two country arguments. *)
Theorem Go_ValidatePhoneNumber_agrees (number country country' : string) :
  Go.ValidatePhoneNumber number country = validatePhoneNumber number country' /\
  (Go.ValidatePhoneNumber number country = true <->
   8 <= digit_count number <= 15).
Proof.
  unfold Go.ValidatePhoneNumber, validatePhoneNumber.
  rewrite Go_keep_digits. cbn [String.append].
  split; [reflexivity|].
  rewrite replace_non_digits_length, andb_true_iff, !Nat.leb_le. reflexivity.
Qed.

(** C8 at an empty callback: the PHP client still sends a [callback] field,
    because the test there is [$callback !== null]; the browser client, like
    the Go one, sends none. *)
Lemma Php_postData_empty_callback :
  Php.postData "628138800001" "id" (Some "")
  = [("number", "628138800001"); ("country", "ID"); ("callback", "")] /\
  Php.http_build_query (Php.postData "628138800001" "id" (Some ""))
  = "number=628138800001&country=ID&callback=" /\
  has_field (Php.postData "628138800001" "id" (Some "")) "callback" = true /\
  has_field (form_data "628138800001" "id" (Some "")) "callback" = false /\
  has_field (Go.form_values "628138800001" "id" "") "callback" = false.
Proof. repeat split; reflexivity. Qed.


Lemma Go_GetStatistics_permutation_example :
  Go.GetStatistics
    [Go.mkCheckResult (Go.mkData "1" "ID" "") None "HTTP error 500: oops" false;
     Go.mkCheckResult (Go.mkData "2" "BR" "")
       (Some (Go.mkResponse "OK" (Some (Go.mkMessage "+552" "yes")) "PAY" "t1")) "" true]
  = Go.GetStatistics
    [Go.mkCheckResult (Go.mkData "2" "BR" "")
       (Some (Go.mkResponse "OK" (Some (Go.mkMessage "+552" "yes")) "PAY" "t1")) "" true;
     Go.mkCheckResult (Go.mkData "1" "ID" "") None "HTTP error 500: oops" false].
Proof.
  apply Go_GetStatistics_permutation. apply perm_swap.
Defined.

(** * The PHP client *)

Section PhpClient.

Variable World : Type.
Variable curl : World -> HttpRequest -> FetchOutcome * World.
Variable this : Checker.







End PhpClient.

(** * Runs on concrete inputs *)

(** A successful outcome with an unexpected status and no [whatsapp] value,
    between a found number and a failure: it counts as successful and enters
    neither tally. *)
Lemma getStatistics_invariants_example :
  let first := success_entry (mkData "628138800001" "ID" None) found in
  let odd := success_entry (mkData "5511999999999" "BR" None) unlisted in
  let last := failure_entry (mkData "5215555555555" "MX" None)
                (mkError "Error" "HTTP error! status: 500") in
  whatsappYes (getStatistics [first; odd; last])
  = whatsappYes (getStatistics [first; last]) /\
  whatsappNo (getStatistics [first; odd; last])
  = whatsappNo (getStatistics [first; last]) /\
  successful (getStatistics [first; odd; last])
  = (successful (getStatistics [first; last]) + 1)%Z.
Proof.
  cbv zeta.
  destruct (getStatistics_invariants
              [success_entry (mkData "628138800001" "ID" None) found;
               success_entry (mkData "5511999999999" "BR" None) unlisted;
               failure_entry (mkData "5215555555555" "MX" None)
                 (mkError "Error" "HTTP error! status: 500")])
    as (_ & _ & _ & _ & _ & _ & _ & H).
  apply (H [success_entry (mkData "628138800001" "ID" None) found]
           [failure_entry (mkData "5215555555555" "MX" None)
              (mkError "Error" "HTTP error! status: 500")]
           (success_entry (mkData "5511999999999" "BR" None) unlisted)).
  - reflexivity.
  - repeat split; discriminate.
Defined.

(** A lookup that returns went through a 2xx answer. *)
Lemma checkNumber_returns_decoded_body_example :
  exists r,
    fst (scripted [Resolved answer_found]
           (request_of checker "628138800001" "ID" None)) = Resolved r /\
    ok r = true /\ res_json r = Return found.
Proof.
  destruct (checkNumber_returns_decoded_body Script scripted checker
              "628138800001" "ID" None [Resolved answer_found]) as (_ & _ & H).
  apply H. reflexivity.
Defined.

(** An ["OK"] response without [message] in the browser client. *)
Lemma formatResult_by_client_example :
  exists tid,
    formatResult (fun _ => "{}") (mkResult (Some "OK") None None None None)
    = "Number: Unknown, WhatsApp: Unknown, Transaction ID: " ++ tid /\
    shows None "N/A" tid.
Proof.
  destruct (formatResult_by_client (fun _ => "{}") (fun _ => "{}")
              (mkResult (Some "OK") None None None None)
              (Go.mkResponse "OK" None "" "")) as ((_ & H & _) & _).
  apply H; reflexivity.
Defined.

(** * Further properties of the clients *)

(** ** Statistics of a batch *)

Section BatchStatistics.

Variable World : Type.
Variable fetch : World -> HttpRequest -> FetchOutcome * World.
Variable this : Checker.




End BatchStatistics.




(** ** Country codes *)








(** ** Form bodies of the Go and PHP clients *)

Section Escaping.

Variable esc : ascii -> string.
Variable escs : string -> string.
Variable build : list (string * string) -> string.
Hypothesis esc_shape : escapes_bytes esc.
Hypothesis escs_nil : escs "" = "".
Hypothesis escs_cons : forall c s, escs (String c s) = esc c ++ escs s.
Hypothesis build_eq : forall l,
  build l = String.concat "&" (map (fun kv => escs (fst kv) ++ "=" ++ escs (snd kv)) l).

Lemma wire_plain_tests (c : ascii) :
  wire_plain c = true ->
  (c =? "+")%char = false /\ (c =? "%")%char = false /\
  (c =? "&")%char = false /\ (c =? "=")%char = false.
Proof.
  unfold wire_plain. rewrite negb_true_iff, !orb_false_iff. tauto.
Qed.

Lemma esc_decode (c : ascii) (s : string) :
  urldecode (esc c ++ s) = String c (urldecode s).
Proof.
  destruct (esc_shape c) as [[-> ->]|[[Hp ->]| ->]].
  - reflexivity.
  - destruct (wire_plain_tests c Hp) as (H1 & H2 & _). simpl. now rewrite H1, H2.
  - destruct (hex_digits_of_byte c) as (Hh & Hl & Hc & _).
    cbn [String.append]. rewrite (urldecode_percent _ _ _ _ _ Hh Hl). now rewrite Hc.
Qed.

Lemma esc_cut (c : ascii) (s : string) :
  cut "=" (esc c ++ s) = (esc c ++ fst (cut "=" s), snd (cut "=" s)).
Proof.
  destruct (esc_shape c) as [[-> ->]|[[Hp ->]| ->]].
  - simpl. destruct (cut "=" s); reflexivity.
  - destruct (wire_plain_tests c Hp) as (_ & _ & _ & H). simpl. rewrite H.
    destruct (cut "=" s); reflexivity.
  - destruct (hex_digits_of_byte c) as (_ & _ & _ & _ & Hh & _ & Hl).
    cbv zeta in Hh, Hl. cbn [String.append cut].
    change ("%" =? "=")%char with false. cbv iota.
    rewrite Hh, Hl. destruct (cut "=" s); reflexivity.
Qed.

Lemma esc_split (c : ascii) (s : string) :
  split "&" (esc c ++ s) = prepend (esc c) (split "&" s).
Proof.
  destruct (esc_shape c) as [[-> ->]|[[Hp ->]| ->]].
  - simpl. destruct (split "&" s); reflexivity.
  - destruct (wire_plain_tests c Hp) as (_ & _ & H & _). simpl. rewrite H.
    destruct (split "&" s); reflexivity.
  - destruct (hex_digits_of_byte c) as (_ & _ & _ & Hh & _ & Hl & _).
    cbv zeta in Hh, Hl. cbn [String.append split].
    change ("%" =? "&")%char with false. cbv iota.
    rewrite Hh, Hl. destruct (split "&" s); reflexivity.
Qed.

Lemma escs_decode (s : string) : urldecode (escs s) = s.
Proof.
  induction s as [|c s IH]; [now rewrite escs_nil|].
  rewrite escs_cons, esc_decode. congruence.
Qed.

Lemma escs_cut (a rest : string) :
  cut "=" (escs a ++ String "=" rest) = (escs a, rest).
Proof.
  induction a as [|c a IH]; [now rewrite escs_nil|].
  rewrite escs_cons, string_app_assoc, esc_cut, IH. reflexivity.
Qed.

Lemma escs_split (a s : string) :
  split "&" (escs a ++ s) = prepend (escs a) (split "&" s).
Proof.
  induction a as [|c a IH].
  - rewrite escs_nil. simpl. symmetry. apply prepend_empty, split_not_nil.
  - rewrite escs_cons, string_app_assoc, esc_split, IH, prepend_prepend.
    reflexivity.
Qed.

Lemma escs_entry_split (kv : string * string) (s : string) :
  split "&" ((escs (fst kv) ++ "=" ++ escs (snd kv)) ++ s)
  = prepend (escs (fst kv) ++ "=" ++ escs (snd kv)) (split "&" s).
Proof.
  rewrite string_app_assoc, escs_split.
  change (("=" ++ escs (snd kv)) ++ s) with (String "=" (escs (snd kv) ++ s)).
  change (split "&" (String "=" (escs (snd kv) ++ s)))
    with (prepend "=" (split "&" (escs (snd kv) ++ s))).
  rewrite escs_split, !prepend_prepend, string_app_assoc. reflexivity.
Qed.

Lemma escs_entry_not_empty (kv : string * string) :
  (escs (fst kv) ++ "=" ++ escs (snd kv) =? "") = false.
Proof. destruct (escs (fst kv)); reflexivity. Qed.

Lemma escs_entry_decode (kv : string * string) :
  decode_entry (escs (fst kv) ++ "=" ++ escs (snd kv)) = kv.
Proof.
  destruct kv as [k v]. unfold decode_entry. cbn [fst snd].
  change (escs k ++ "=" ++ escs v) with (escs k ++ String "=" (escs v)).
  rewrite escs_cut, !escs_decode. reflexivity.
Qed.

(** A form written by such an encoder reads back as the entries it was
    built from. *)
Lemma parse_form_build (l : list (string * string)) : parse_form (build l) = l.
Proof.
  unfold parse_form. rewrite build_eq.
  assert (H : filter (fun s => negb (s =? ""))
                (split "&" (String.concat "&"
                   (map (fun kv => escs (fst kv) ++ "=" ++ escs (snd kv)) l)))
              = map (fun kv => escs (fst kv) ++ "=" ++ escs (snd kv)) l).
  { induction l as [|e l IH]; [reflexivity|].
    destruct l as [|e' l].
    - cbn [map String.concat].
      rewrite <- (string_app_nil_r (escs (fst e) ++ "=" ++ escs (snd e))) at 1.
      rewrite escs_entry_split. cbn [split prepend filter].
      rewrite string_app_nil_r, escs_entry_not_empty. reflexivity.
    - cbn [map String.concat] in *.
      change (?a ++ "&" ++ ?b) with (a ++ String "&" b).
      rewrite escs_entry_split.
      match goal with
      | |- context [split "&" (String "&" ?t)] =>
          change (split "&" (String "&" t)) with ("" :: split "&" t)
      end.
      cbn [prepend filter]. rewrite string_app_nil_r, escs_entry_not_empty.
      cbn [negb]. rewrite IH. reflexivity. }
  rewrite H, map_map.
  rewrite (map_ext _ (fun e => e) escs_entry_decode). apply map_id.
Qed.

End Escaping.


Lemma Php_urlencode_shape : escapes_bytes Php.urlencode_byte.
Proof. intros c. each_byte c; vm_compute; pick_escape. Qed.


Lemma Php_parse_http_build_query (data : list (string * string)) :
  parse_form (Php.http_build_query data) = data.
Proof.
  apply (parse_form_build Php.urlencode_byte Php.urlencode Php.http_build_query
           Php_urlencode_shape); reflexivity.
Qed.


(** The body the PHP client posts reads back as [$postData]: the number as
    given, the country in upper case, and a callback exactly when the
    callback argument is not [null], the empty string included.  It is the
    body of the one transfer [checkNumber] makes. *)
Theorem Php_payload_fields (World : Type)
    (curl : World -> HttpRequest -> FetchOutcome * World) (this : Checker)
    (number country : string) (callback : option string) (w : World) :
  let req := Php.request_of this number country callback in
  let form := parse_form (req_body req) in
  trace (Php.checkNumber World curl this number country callback w)
    = [FetchCall req] /\
  form = ([("number", number); ("country", toUpperCase country)]
          ++ match callback with Some cb => [("callback", cb)] | None => [] end)%list /\
  field form "number" = Some number /\
  field form "country" = Some (toUpperCase country) /\
  field form "callback" = callback.
Proof.
  cbv zeta. split.
  - unfold Php.checkNumber. destruct (curl w _). reflexivity.
  - unfold Php.request_of; cbn [req_body]. rewrite Php_parse_http_build_query.
    unfold Php.postData. destruct callback; repeat split; reflexivity.
Qed.

(** ** The PHP formatter and statistics against the browser ones *)

Lemma Php_count_fold (l : list Outcome) :
  forall c,
    fold_left Php.count_result l c =
    Php.mkCounters
      (Php.c_successful c + Z.of_nat (length (filter success l)))
      (Php.c_yes c + Z.of_nat (length (filter (whatsapp_is "yes") l)))
      (Php.c_no c + Z.of_nat (length (filter (whatsapp_is "no") l))).
Proof.
  induction l as [|o l IH]; intros c.
  - destruct c. simpl. f_equal; lia.
  - cbn [fold_left filter]. rewrite IH.
    pose proof (whatsapp_is_exclusive o) as Hx.
    unfold Php.count_result, whatsapp_is, strict_eq in *.
    destruct (success o); simpl; [|f_equal; lia].
    destruct (message (result o)) as [m|]; simpl; [|f_equal; lia].
    destruct (msg_whatsapp m) as [s|]; simpl; [|f_equal; lia].
    destruct (s =? "yes") eqn:Hy; simpl.
    + destruct (s =? "no") eqn:Hn; [exfalso; simpl in Hx; auto|].
      simpl. f_equal; lia.
    + destruct (s =? "no"); simpl; f_equal; lia.
Qed.

(** The counting loop of the PHP [getStatistics] and the three filters of
    the browser [getStatistics] give the same statistics on every list of
    outcomes. *)
Theorem Php_getStatistics_agrees (results : list Outcome) :
  Php.getStatistics results = getStatistics results.
Proof.
  unfold Php.getStatistics, getStatistics. rewrite Php_count_fold. simpl.
  reflexivity.
Qed.

Lemma string_app_inv_head (n a b : string) : n ++ a = n ++ b -> a = b.
Proof.
  induction n as [|c n IH]; simpl; [tauto|].
  intros [= H]. auto.
Qed.

Lemma coalesce_or_else (v : option string) (d : string) :
  v <> Some "" -> Php.coalesce v d = or_else v d.
Proof.
  destruct v as [s|]; simpl; [|reflexivity].
  intros H. destruct (String.eqb_spec s ""); congruence.
Qed.

(** On a response with status ["OK"] and a [message], the PHP and the
    browser formatter print the same line exactly when none of the three
    fields shown is the empty string: [??] keeps an empty string where [||]
    puts the default. *)
Theorem Php_formatResult_agrees (json_encode stringify : ResultObj -> string)
    (r : ResultObj) (m : Message) :
  status r = Some "OK" ->
  message r = Some m ->
  (Php.formatResult json_encode r = formatResult stringify r <->
   msg_number m <> Some "" /\ msg_whatsapp m <> Some "" /\
   transactionId r <> Some "").
Proof.
  intros Hs Hm. unfold Php.formatResult, formatResult. rewrite Hm, Hs.
  cbn [strict_eq String.eqb Ascii.eqb Bool.eqb].
  split.
  - intros H. apply string_app_inv_head in H.
    destruct (msg_number m) as [n|] eqn:Hn.
    + destruct (String.eqb_spec n "") as [->|Hne].
      * simpl in H. discriminate.
      * assert (Hnn : or_else (Some n) "Unknown" = n)
          by (simpl; destruct (String.eqb_spec n ""); congruence).
        rewrite Hnn in H. cbn [Php.coalesce] in H.
        apply string_app_inv_head, string_app_inv_head in H.
        split; [congruence|].
        destruct (msg_whatsapp m) as [a|] eqn:Ha.
        -- destruct (String.eqb_spec a "") as [->|Ha'].
           ++ simpl in H. discriminate.
           ++ assert (Haa : or_else (Some a) "Unknown" = a)
                by (simpl; destruct (String.eqb_spec a ""); congruence).
              rewrite Haa in H. cbn [Php.coalesce] in H.
              apply string_app_inv_head, string_app_inv_head in H.
              split; [congruence|].
              destruct (transactionId r) as [t|]; [|discriminate].
              destruct (String.eqb_spec t "") as [->|Ht]; [|congruence].
              simpl in H. discriminate.
        -- cbn [Php.coalesce or_else] in H.
           apply string_app_inv_head, string_app_inv_head in H.
           split; [discriminate|].
           destruct (transactionId r) as [t|]; [|discriminate].
           destruct (String.eqb_spec t "") as [->|Ht]; [|congruence].
           simpl in H. discriminate.
    + cbn [Php.coalesce or_else] in H.
      apply string_app_inv_head, string_app_inv_head in H.
      split; [discriminate|].
      destruct (msg_whatsapp m) as [a|] eqn:Ha.
      * destruct (String.eqb_spec a "") as [->|Ha'].
        -- simpl in H. discriminate.
        -- assert (Haa : or_else (Some a) "Unknown" = a)
             by (simpl; destruct (String.eqb_spec a ""); congruence).
           rewrite Haa in H. cbn [Php.coalesce] in H.
           apply string_app_inv_head, string_app_inv_head in H.
           split; [congruence|].
           destruct (transactionId r) as [t|]; [|discriminate].
           destruct (String.eqb_spec t "") as [->|Ht]; [|congruence].
           simpl in H. discriminate.
      * cbn [Php.coalesce or_else] in H.
        apply string_app_inv_head, string_app_inv_head in H.
        split; [discriminate|].
        destruct (transactionId r) as [t|]; [|discriminate].
        destruct (String.eqb_spec t "") as [->|Ht]; [|congruence].
        simpl in H. discriminate.
  - intros (Hn & Ha & Ht).
    now rewrite !coalesce_or_else.
Qed.

Lemma Php_formatResult_agrees_example :
  Php.formatResult (fun _ => "{}") found = formatResult (fun _ => "{}") found <->
  msg_number (mkMessage (Some "+628138800001") (Some "yes")) <> Some "" /\
  msg_whatsapp (mkMessage (Some "+628138800001") (Some "yes")) <> Some "" /\
  transactionId found <> Some "".
Proof.
  exact (Php_formatResult_agrees (fun _ => "{}") (fun _ => "{}") found
           (mkMessage (Some "+628138800001") (Some "yes")) eq_refl eq_refl).
Defined.

(** * The PHP example script *)


Section PhpMain.

Variable World : Type.
Variable curl : World -> HttpRequest -> FetchOutcome * World.
Variables je jp : ResultObj -> string.









End PhpMain.

(** * The Go example program *)

Section GoMain.

Variable World : Type.
Variable Do : World -> Go.Request -> Go.Exchange * World.
Variable Unmarshal : string -> Go.WhatsAppResponse + string.
Variables Marshal MarshalIndent : Go.WhatsAppResponse -> string.

Lemma Go_lib_app (a b : list Go.Output) :
  Go.lib (a ++ b) = (Go.lib a ++ Go.lib b)%list.
Proof. induction a as [|[] a IH]; simpl; congruence. Qed.

Lemma Go_lib_map (t : list Go.Event) : Go.lib (map Go.Lib t) = t.
Proof. induction t as [|e t IH]; simpl; congruence. Qed.

Lemma Go_log_lines_app (a b : list Go.Output) :
  Go.log_lines (a ++ b) = (Go.log_lines a ++ Go.log_lines b)%list.
Proof. induction a as [|[] a IH]; simpl; congruence. Qed.

Lemma Go_log_lines_map (t : list Go.Event) : Go.log_lines (map Go.Lib t) = [].
Proof. induction t as [|e t IH]; simpl; congruence. Qed.

Lemma Go_split_at_calls_quiet (a b : list Go.Event) (cur : list Z) :
  (forall e, In e a -> exists text, e = Go.Printf text) ->
  Go.split_at_calls (a ++ b) cur = Go.split_at_calls b cur.
Proof.
  induction a as [|e a IH]; intros H; [reflexivity|].
  destruct (H e (or_introl eq_refl)) as [text ->]. simpl.
  apply IH. intros e' He'. apply H. now right.
Qed.

Lemma Go_split_at_calls_cons (a : list Go.Event) : forall cur,
  exists g gs, Go.split_at_calls a cur = g :: gs.
Proof.
  induction a as [|[text|req|ms] a IH]; intros cur; simpl; eauto.
Qed.

Lemma Go_split_at_calls_app (a b : list Go.Event) : forall cur,
  Go.split_at_calls (a ++ b) cur =
  (removelast (Go.split_at_calls a cur) ++
   Go.split_at_calls b (last (Go.split_at_calls a cur) []))%list.
Proof.
  induction a as [|e a IH]; intros cur; [reflexivity|].
  destruct e as [text|req|ms]; cbn [Go.split_at_calls app].
  - apply IH.
  - rewrite IH.
    destruct (Go_split_at_calls_cons a []) as (g & gs & ->). reflexivity.
  - apply IH.
Qed.

Lemma Go_summary_prints (i : nat) (results : list Go.CheckResult) :
  forall e, In e (Go.summary Marshal i results) -> exists text, e = Go.Printf text.
Proof.
  revert i. induction results as [|r rest IH]; intros i e He; [destruct He|].
  destruct He as [<-|He]; [|exact (IH _ _ He)].
  destruct (Go.Success r), (Go.Result r); eexists; reflexivity.
Qed.

(** Go example program: whatever the endpoint answers, the program makes
    five requests (the single lookup and the batch of four) and sleeps one
    second after each of the first three batch requests; a failed single
    lookup is only logged, and the batch runs all the same. *)
Theorem Go_main_runs (env : string) (s : World) :
  let checker :=
    Go.NewWhatsAppRealtimeChecker (if env =? "" then "YOUR_API_KEY" else env) in
  let first := Go.CheckNumber World Do Unmarshal checker s "628138800001" "ID" "" in
  let t := snd (Go.main World Do Unmarshal Marshal MarshalIndent env s) in
  Go.calls (Go.lib t)
  = (Go.new_request checker "628138800001" "ID" ""
     :: map (fun d => Go.new_request checker (Go.DataNumber d) (Go.Country d)
                        (Go.Callback d))
          Go.numbersToCheck)%list /\
  Go.split_at_calls (Go.lib t) [] = [[]; []; [1000]; [1000]; [1000]; []]%Z /\
  Go.log_lines t = match fst (fst first) with
                   | inr err => ["Error: " ++ err]
                   | inl _ => []
                   end.
Proof.
  cbv zeta. unfold Go.main.
  set (checker := Go.NewWhatsAppRealtimeChecker _).
  pose proof (Go_CheckNumber_events World Do Unmarshal checker s "628138800001" "ID" "")
    as Hev.
  destruct (Go.CheckNumber World Do Unmarshal checker s "628138800001" "ID" "")
    as [[r s1] ev]. simpl in Hev. subst ev.
  pose proof (Go_batch_loop_calls World Do Unmarshal checker 4 1000 Go.numbersToCheck 0 [] s1)
    as Hc.
  pose proof (Go_batch_loop_pacing World Do Unmarshal checker 4 1000 Go.numbersToCheck 0 [] s1 [])
    as Hp.
  change (Go.batch_loop World Do Unmarshal checker 4 1000 0 Go.numbersToCheck [] s1)
    with (Go.CheckMultipleNumbers World Do Unmarshal checker s1 Go.numbersToCheck 1000)
    in Hc, Hp.
  destruct (Go.CheckMultipleNumbers World Do Unmarshal checker s1 Go.numbersToCheck 1000)
    as [[results s2] ev2]. cbn [fst snd] in *.
  set (tail := [Go.Lib _; Go.Lib _; Go.Lib _; Go.Lib _; Go.Lib _; Go.Lib _]).
  assert (Hcalls : forall l, (forall e, In e l -> exists text, e = Go.Printf text) ->
            Go.calls l = []).
  { induction l as [|e l IH]; intros H; [reflexivity|].
    destruct (H e (or_introl eq_refl)) as [text ->]. simpl.
    apply IH. intros e' He'. apply H. now right. }
  pose proof (Go_summary_prints 0 results) as Hs.
  assert (Hcalls_app : forall a b, Go.calls (a ++ b) = (Go.calls a ++ Go.calls b)%list).
  { induction a as [|[] a IH]; intros b; simpl; congruence. }
  split; [|split].
  - destruct r as [result|err];
      repeat (progress (rewrite ?Go_lib_app, ?Go_lib_map, ?Hcalls_app;
                        cbn [app map Go.lib Go.calls]));
      rewrite Hc, (Hcalls _ Hs); reflexivity.
  - change (Go.pacing 4 1000 0 (length Go.numbersToCheck))
      with [[1000]; [1000]; [1000]; []]%Z in Hp.
    destruct r as [result|err];
      repeat (progress (rewrite ?Go_lib_app, ?Go_lib_map;
                        cbn [app map Go.lib Go.split_at_calls]));
      rewrite Go_split_at_calls_app, Hp; cbn [removelast last app Go.split_at_calls];
      rewrite (Go_split_at_calls_quiet _ _ _ Hs); reflexivity.
  - destruct r as [result|err];
      repeat (progress (rewrite ?Go_log_lines_app, ?Go_log_lines_map;
                        cbn [app map Go.log_lines fst]));
      reflexivity.
Qed.

End GoMain.

(** * The C# client *)

Section CSharpClient.

Variable World : Type.
Variable PostAsync : World -> HttpRequest -> CSharp.PostOutcome * World.
Variable ToUpper : string -> string.
Variable FormUrlEncodedContent : list (string * string) -> string.
Variable EnsureSuccessStatusCode_Message : CSharp.HttpResponseMessage -> string.
Variable Deserialize : string -> Completion (option CSharp.WhatsAppResponse).
Variable this : CSharp.WhatsAppRealtimeChecker.

Lemma CSharp_CheckNumberAsync_run number country callback (w : World) :
  CSharp.CheckNumberAsync World PostAsync ToUpper FormUrlEncodedContent
    EnsureSuccessStatusCode_Message Deserialize this number country callback w =
  let req := CSharp.request_of ToUpper FormUrlEncodedContent this number country callback in
  match PostAsync w req with
  | (CSharp.Faulted ex, w') => mkRun (Throw (CSharp.rethrown ex)) w' [FetchCall req]
  | (CSharp.Completed response, w') =>
      if CSharp.IsSuccessStatusCode response then
        match Deserialize (CSharp.Content response) with
        | Return result => mkRun (Return result) w' [FetchCall req]
        | Throw ex => mkRun (Throw (CSharp.rethrown ex)) w' [FetchCall req]
        end
      else
        mkRun (Throw (CSharp.Exception
                        ("Request failed: " ++ EnsureSuccessStatusCode_Message response)))
              w' [FetchCall req]
  end.
Proof.
  unfold CSharp.CheckNumberAsync, CSharp.await_PostAsync,
    CSharp.EnsureSuccessStatusCode, CSharp.rethrown, try_catch, bind, when,
    throw, ret. cbv zeta.
  destruct (PostAsync w _) as [[ex|response] w']; cbn [value final trace].
  - destruct (CSharp.is_a "HttpRequestException" ex);
      [|destruct (CSharp.is_a "JsonException" ex)]; reflexivity.
  - destruct (CSharp.IsSuccessStatusCode response); cbn; [|reflexivity].
    destruct (Deserialize (CSharp.Content response)) as [result|ex]; cbn;
      [reflexivity|].
    destruct (CSharp.is_a "HttpRequestException" ex);
      [|destruct (CSharp.is_a "JsonException" ex)]; reflexivity.
Qed.

(** C# lookup: one request is posted; an answer outside 200..299 gives
    [Exception("Request failed: ...")] with the text of the framework for
    that status, and its body is neither decoded nor reported; an answer
    inside gives what decoding its body gives; of the exceptions met on the
    way only [HttpRequestException] and [JsonException] are rewrapped, so
    that a timeout, for one, reaches the caller as it was thrown. *)
Theorem CSharp_CheckNumberAsync_by_outcome number country callback (w : World) :
  let req := CSharp.request_of ToUpper FormUrlEncodedContent this number country callback in
  let run := CSharp.CheckNumberAsync World PostAsync ToUpper FormUrlEncodedContent
               EnsureSuccessStatusCode_Message Deserialize this number country callback w in
  trace run = [FetchCall req] /\
  final run = snd (PostAsync w req) /\
  match fst (PostAsync w req) with
  | CSharp.Faulted ex =>
      value run = Throw (CSharp.rethrown ex) /\
      (err_name ex <> "HttpRequestException" -> err_name ex <> "JsonException" ->
       value run = Throw ex)
  | CSharp.Completed response =>
      if CSharp.IsSuccessStatusCode response then
        match Deserialize (CSharp.Content response) with
        | Return result => value run = Return result
        | Throw ex => value run = Throw (CSharp.rethrown ex)
        end
      else
        value run =
        Throw (CSharp.Exception
                 ("Request failed: " ++ EnsureSuccessStatusCode_Message response))
  end.
Proof.
  cbv zeta. rewrite CSharp_CheckNumberAsync_run. cbv zeta.
  destruct (PostAsync w _) as [[ex|response] w']; cbn [fst snd].
  - repeat split. intros H1 H2. unfold CSharp.rethrown, CSharp.is_a.
    destruct (String.eqb_spec (err_name ex) "HttpRequestException"); [contradiction|].
    destruct (String.eqb_spec (err_name ex) "JsonException"); [contradiction|].
    reflexivity.
  - destruct (CSharp.IsSuccessStatusCode response);
      [destruct (Deserialize (CSharp.Content response))|]; repeat split.
Qed.

Lemma CSharp_iteration_run count delay i data results (w : World) :
  let r := CSharp.CheckNumberAsync World PostAsync ToUpper FormUrlEncodedContent
             EnsureSuccessStatusCode_Message Deserialize this
             (CSharp.DataNumber data) (CSharp.Country data) (CSharp.Callback data) w in
  let it := CSharp.iteration World PostAsync ToUpper FormUrlEncodedContent
              EnsureSuccessStatusCode_Message Deserialize this count delay i data results w in
  value it = Return (results ++ [CSharp.entry_of data (value r)])%list /\
  final it = final r /\
  exists banner tail,
    trace it = (ConsoleLog banner :: trace r ++ tail)%list /\
    fetch_calls tail = [] /\
    timers tail =
      if is_return (value r) &&
         ((delay >? 0)%Z && (Z.of_nat i <? Z.of_nat count - 1)%Z)
      then [delay] else [].
Proof.
  cbv zeta. unfold CSharp.iteration, try_catch, bind, emit, when, ret.
  simpl.
  destruct (CSharp.CheckNumberAsync World PostAsync ToUpper FormUrlEncodedContent
              EnsureSuccessStatusCode_Message Deserialize this
              (CSharp.DataNumber data) (CSharp.Country data) (CSharp.Callback data) w)
    as [[v|e] w' t]; simpl.
  - destruct ((delay >? 0)%Z && (Z.of_nat i <? Z.of_nat count - 1)%Z); simpl;
      (split; [reflexivity|split; [reflexivity|]]).
    + eexists _, [SetTimeout delay]. repeat split; reflexivity.
    + eexists _, []. rewrite !app_nil_r. repeat split; reflexivity.
  - split; [reflexivity|split; [reflexivity|]]. eexists _, [_].
    repeat split; reflexivity.
Qed.

Lemma CSharp_CheckNumberAsync_trace number country callback (w : World) :
  trace (CSharp.CheckNumberAsync World PostAsync ToUpper FormUrlEncodedContent
           EnsureSuccessStatusCode_Message Deserialize this number country callback w)
  = [FetchCall (CSharp.request_of ToUpper FormUrlEncodedContent this
                  number country callback)].
Proof.
  rewrite CSharp_CheckNumberAsync_run. cbv zeta.
  destruct (PostAsync w _) as [[ex|response] w']; [reflexivity|].
  destruct (CSharp.IsSuccessStatusCode response);
    [destruct (Deserialize (CSharp.Content response))|]; reflexivity.
Qed.

Lemma CSharp_batch_loop_run count delay (rest : list CSharp.NumberData) :
  forall i results (w : World) cur,
    let run := CSharp.batch_loop World PostAsync ToUpper FormUrlEncodedContent
                 EnsureSuccessStatusCode_Message Deserialize this
                 count delay i rest results w in
    let cs := CSharp.lookups World PostAsync ToUpper FormUrlEncodedContent
                EnsureSuccessStatusCode_Message Deserialize this rest w in
    value run
    = Return (results ++ map (fun p => CSharp.entry_of (fst p) (snd p))
                           (combine rest cs))%list /\
    fetch_calls (trace run)
    = map (fun d => CSharp.request_of ToUpper FormUrlEncodedContent this
                      (CSharp.DataNumber d) (CSharp.Country d) (CSharp.Callback d))
          rest /\
    split_at_calls (trace run) cur = cur :: CSharp.pacing count delay i cs.
Proof.
  induction rest as [|d rest IH]; intros i results w cur; cbv zeta.
  - simpl. rewrite app_nil_r. repeat split; reflexivity.
  - cbn [CSharp.batch_loop CSharp.lookups].
    destruct (CSharp_iteration_run count delay i d results w)
      as (Hv & Hf & banner & tail & Ht & Hc & Htm).
    rewrite (bind_return _ _ _ _ _ Hv). cbn [value trace].
    pose proof (CSharp_CheckNumberAsync_trace (CSharp.DataNumber d)
                  (CSharp.Country d) (CSharp.Callback d) w) as Htr.
    rewrite Hf, Ht, Htr.
    match goal with
    | |- context [CSharp.batch_loop _ _ _ _ _ _ _ _ _ _ rest ?acc ?w1] =>
        destruct (IH (S i) acc w1
                    (if is_return (value (CSharp.CheckNumberAsync World PostAsync
                          ToUpper FormUrlEncodedContent EnsureSuccessStatusCode_Message
                          Deserialize this (CSharp.DataNumber d) (CSharp.Country d)
                          (CSharp.Callback d) w)) &&
                        ((delay >? 0)%Z && (Z.of_nat i <? Z.of_nat count - 1)%Z)
                     then [delay] else []))
          as (IHv & IHc & IHp)
    end.
    split; [|split].
    + rewrite IHv, <- app_assoc. reflexivity.
    + cbn [app fetch_calls]. rewrite fetch_calls_app, Hc, IHc. reflexivity.
    + cbn [app split_at_calls].
      rewrite split_at_calls_quiet by exact Hc.
      rewrite Htm. cbn [app]. rewrite IHp. reflexivity.
Qed.

(** C# batch: the call never throws and returns one result per item, in
    input order, each made from the item's own lookup; it posts one request
    per item, in order; and it delays only after a lookup that succeeded
    (when the delay is positive and the item is not the last), so that a
    failed lookup is followed at once by the next request. *)
Theorem CSharp_CheckMultipleNumbersAsync_run (numbersData : list CSharp.NumberData)
    (delayMilliseconds : Z) (w : World) :
  let run := CSharp.CheckMultipleNumbersAsync World PostAsync ToUpper
               FormUrlEncodedContent EnsureSuccessStatusCode_Message Deserialize this
               numbersData (Some delayMilliseconds) w in
  let cs := CSharp.lookups World PostAsync ToUpper FormUrlEncodedContent
              EnsureSuccessStatusCode_Message Deserialize this numbersData w in
  exists results,
    value run = Return results /\
    length results = length numbersData /\
    map CSharp.Input results = numbersData /\
    results = map (fun p => CSharp.entry_of (fst p) (snd p)) (combine numbersData cs) /\
    fetch_calls (trace run)
    = map (fun d => CSharp.request_of ToUpper FormUrlEncodedContent this
                      (CSharp.DataNumber d) (CSharp.Country d) (CSharp.Callback d))
          numbersData /\
    split_at_calls (trace run) []
    = [] :: CSharp.pacing (length numbersData) delayMilliseconds 0 cs.
Proof.
  cbv zeta. unfold CSharp.CheckMultipleNumbersAsync.
  destruct (CSharp_batch_loop_run (length numbersData) delayMilliseconds numbersData
              0 [] w []) as (Hv & Hc & Hp).
  eexists. split; [exact Hv|]. cbn [app].
  assert (Hlen : forall items w',
            length (CSharp.lookups World PostAsync ToUpper FormUrlEncodedContent
                      EnsureSuccessStatusCode_Message Deserialize this items w')
            = length items).
  { induction items as [|d items IH]; intros w'; simpl; congruence. }
  split; [now rewrite length_map, length_combine, Hlen, Nat.min_id|].
  split; [|split; [reflexivity|split; assumption]].
  clear Hv Hc Hp. revert w.
  induction numbersData as [|d items IH]; intros w; [reflexivity|].
  cbn [CSharp.lookups combine map fst snd]. rewrite IH.
  destruct (value _); reflexivity.
Qed.

End CSharpClient.

(** A batch of two against an endpoint that answers 500 and then 200, next
    to one that answers 200 twice: no delay follows the failed lookup. *)
Lemma CSharp_batch_example :
  let run script :=
    CSharp.CheckMultipleNumbersAsync CSharp.Script CSharp.scripted toUpperCase toString
      CSharp.status_line CSharp.decoded
      (CSharp.new_WhatsAppRealtimeChecker "YOUR_API_KEY")
      [CSharp.mkData "628138800001" "ID" None; CSharp.mkData "5511999999999" "BR" None]
      (Some 1000%Z) script in
  let fine := CSharp.Completed (CSharp.mkResponseMessage 200 "OK" "{}") in
  let broken :=
    CSharp.Completed (CSharp.mkResponseMessage 500 "Internal Server Error" "oops") in
  timers (trace (run [broken; fine])) = [] /\
  timers (trace (run [fine; fine])) = [1000%Z] /\
  option_map (map CSharp.ErrorMessage) (match value (run [broken; fine]) with
                                        | Return l => Some l
                                        | Throw _ => None
                                        end)
  = Some [Some ("Request failed: Response status code does not indicate success: " ++
                "500 (Internal Server Error)."); None].
Proof. cbv zeta. repeat split; reflexivity. Qed.

(** * The page of the browser file *)

Lemma split_cut (sep : ascii) (s : string) :
  split sep s =
  fst (cut sep s) :: (if contains sep s then split sep (snd (cut sep s)) else []).
Proof.
  induction s as [|c s IH]; [reflexivity|].
  cbn [split cut contains].
  destruct (Ascii.eqb_spec c sep) as [->|Hne]; cbn [orb].
  - reflexivity.
  - rewrite IH. destruct (cut sep s) as [a b]. reflexivity.
Qed.

Lemma parse_lines_app (trim : string -> string) (lines : list string) :
  forall acc, parse_lines trim lines acc = (acc ++ parse_lines trim lines [])%list.
Proof.
  induction lines as [|line rest IH]; intros acc; cbn [parse_lines].
  - now rewrite app_nil_r.
  - destruct (2 <=? length (split "," line))%nat.
    + rewrite IH, (IH ([] ++ _)%list), <- app_assoc. reflexivity.
    + apply IH.
Qed.

(** Bulk text: the lines are read in order; a line counts when it holds a
    comma; its number is the trimmed text before the first comma and its
    country the trimmed text between the first comma and the second, what
    follows being ignored; no pair has a callback. *)
Theorem parse_lines_pairs (trim : string -> string) (lines : list string) :
  parse_lines trim lines [] = map (pair_of trim) (filter (contains ",") lines).
Proof.
  induction lines as [|line rest IH]; [reflexivity|].
  cbn [parse_lines filter]. rewrite parse_lines_app, IH.
  rewrite (split_cut "," line).
  assert (Hp : pair_of trim line
               = mkData (trim (fst (cut "," line)))
                        (trim (fst (cut "," (snd (cut "," line))))) None).
  { unfold pair_of. destruct (cut "," line) as [number tl]. cbn [fst snd].
    destruct (cut "," tl); reflexivity. }
  destruct (contains "," line); cbn [length Nat.leb]; [|reflexivity].
  rewrite (split_cut "," (snd (cut "," line))).
  cbn [length Nat.leb nth app map]. rewrite Hp. reflexivity.
Qed.

Section PageProofs.

Variable World : Type.
Variable fetch : World -> HttpRequest -> FetchOutcome * World.
Variable JSON_stringify : ResultObj -> string.
Variable JSON_stringify_pretty : ResultObj -> string.
Variable trim : string -> string.
Variable parseInt : string -> option Z.



(** What the bulk handler does, by the pairs it finds. *)
Lemma checkBulkNumbers_cases (page : Page) (w : World) :
  let items := bulk_items trim page in
  let checker := new_WhatsAppRealtimeChecker (api_key page) in
  let run := checkBulkNumbers World fetch JSON_stringify trim parseInt page w in
  let batch := checkMultipleNumbers World fetch checker items
                 (Some (delay_of parseInt (delay_input page))) w in
  match items with
  | [] => exists msg, run = mkRun (Return (set_status page msg)) w []
  | _ :: _ =>
      exists status content,
        run = mkRun (Return (set_display (set_content
                 (set_status (set_display (set_status page status) "none")
                    (span "green" "Bulk check completed!")) content) "block"))
                (final batch) (trace batch)
  end.
Proof.
  cbv zeta. unfold checkBulkNumbers, bulk_items.
  destruct (api_key page =? ""); [eexists; reflexivity|].
  destruct (trim (bulk_numbers page) =? ""); [eexists; reflexivity|].
  destruct (parse_lines trim _ []) as [|d items] eqn:E; [eexists; reflexivity|].
  cbn [length Nat.eqb].
  pose proof (batch_loop_value World fetch (new_WhatsAppRealtimeChecker (api_key page))
                (length (d :: items)) (delay_of parseInt (delay_input page))
                (d :: items) 0 [] w) as Hv.
  change (batch_loop World fetch (new_WhatsAppRealtimeChecker (api_key page))
            (length (d :: items)) (delay_of parseInt (delay_input page)) 0
            (d :: items) [] w)
    with (checkMultipleNumbers World fetch (new_WhatsAppRealtimeChecker (api_key page))
            (d :: items) (Some (delay_of parseInt (delay_input page))) w) in Hv.
  unfold try_catch. rewrite (bind_return _ _ _ _ _ Hv). cbn [value final trace ret].
  rewrite app_nil_r. do 2 eexists. reflexivity.
Qed.




(** Bulk button: a delay box that reads as zero, or as no number, does not
    switch the pauses off: the batch runs with the default of 1000 ms. *)
Theorem checkBulkNumbers_zero_delay (page : Page) (w : World) :
  parseInt (delay_input page) = Some 0%Z \/ parseInt (delay_input page) = None ->
  let items := bulk_items trim page in
  let checker := new_WhatsAppRealtimeChecker (api_key page) in
  let run := checkBulkNumbers World fetch JSON_stringify trim parseInt page w in
  split_at_calls (trace run) []
  = [] :: pacing (length items) 1000 0 (lookups World fetch checker items w).
Proof.
  intros Hd. cbv zeta.
  pose proof (checkBulkNumbers_cases page w) as H. cbv zeta in H.
  assert (Hdelay : delay_of parseInt (delay_input page) = 1000%Z).
  { unfold delay_of. destruct Hd as [-> | ->]; reflexivity. }
  rewrite Hdelay in H.
  destruct (bulk_items trim page) as [|d items].
  - destruct H as [msg ->]. reflexivity.
  - destruct H as (st & content & ->). cbn [trace].
    apply batch_loop_pacing.
Qed.


End PageProofs.

(** A page with [0] in the delay box, two well-formed lines and one
    without a comma: two requests, and a pause of 1000 ms between them. *)
Lemma checkBulkNumbers_zero_delay_example :
  (parseInt_sample (delay_input (sample_page "0")) = Some 0%Z \/
   parseInt_sample (delay_input (sample_page "0")) = None) /\
  split_at_calls
    (trace (checkBulkNumbers Script scripted (fun _ => "{}") trim_nothing parseInt_sample
              (sample_page "0") [Resolved answer_found; Resolved answer_found])) []
  = [[]; [1000%Z]; []].
Proof.
  split; [left; reflexivity|].
  exact (checkBulkNumbers_zero_delay Script scripted (fun _ => "{}") trim_nothing
           parseInt_sample (sample_page "0")
           [Resolved answer_found; Resolved answer_found] (or_introl eq_refl)).
Defined.

(** * The Node.js variant *)



(** Node.js variant, single lookup: one request is posted; what the client
    gets back is returned as it is; a rejection that holds a response
    becomes an [Error] naming the status and the serialized body of that
    response, which the browser class leaves out; a rejection without a
    response (no answer, a timeout) is thrown on unchanged. *)
Theorem Node_checkNumber_by_outcome (World Data : Type)
    (JSON_stringify : Data -> string)
    (post : World -> HttpRequest -> Node.PostOutcome Data * World)
    (this : Checker) (number country : string) (callback : option string)
    (w : World) :
  let req := Node.request_of this number country callback in
  let run := Node.checkNumber World Data JSON_stringify post this
               number country callback w in
  trace run = [FetchCall req] /\
  final run = snd (post w req) /\
  match fst (post w req) with
  | Node.Fulfilled data => value run = Return data
  | Node.PostRejected error (Some response) =>
      value run =
      Throw (mkError "Error"
               ("HTTP error! status: " ++
                Number_toString (Node.response_status response) ++
                ", message: " ++ JSON_stringify (Node.response_data response)))
  | Node.PostRejected error None => value run = Throw error
  end.
Proof.
  cbv zeta. unfold Node.checkNumber.
  destruct (post w _) as [[data|error [response|]] w']; repeat split.
Qed.


(** The two phone number checks of the JavaScript file, written with
    opposite tests, accept the same numbers. *)
Theorem Node_validatePhoneNumber_agrees (number country : string) :
  Node.validatePhoneNumber number country = validatePhoneNumber number country.
Proof.
  unfold Node.validatePhoneNumber, validatePhoneNumber. cbv zeta.
  destruct (Nat.ltb_spec (String.length (replace_non_digits number)) 8);
    destruct (Nat.ltb_spec 15 (String.length (replace_non_digits number)));
    destruct (Nat.leb_spec 8 (String.length (replace_non_digits number)));
    destruct (Nat.leb_spec (String.length (replace_non_digits number)) 15);
    simpl; try reflexivity; lia.
Qed.

(** * The interactive mode of the PHP script *)

Section PhpInteractive.

Variable json_encode : ResultObj -> string.
Variable World : Type.
Variable curl : World -> HttpRequest -> FetchOutcome * World.
Variable loose_eq : string -> string -> bool.
Variable checker : Checker.



Lemma Php_say_bind {B} (t : string) (k : unit -> M (Php.Session World) B)
    (s : Php.Session World) :
  bind (Php.Session World) (Php.say World t) k s
  = mkRun (value (k tt s)) (final (k tt s)) (ConsoleLog t :: trace (k tt s)).
Proof. reflexivity. Qed.

Lemma Php_readline_bind {B} (prompt : string)
    (k : option string -> M (Php.Session World) B) (w : World)
    (line : string) (rest : list string) :
  bind (Php.Session World) (Php.readline World prompt) k (w, line :: rest)
  = mkRun (value (k (Some line) (w, rest))) (final (k (Some line) (w, rest)))
          (ConsoleLog prompt :: trace (k (Some line) (w, rest))).
Proof. reflexivity. Qed.

Lemma Php_readline_end {B} (prompt : string)
    (k : option string -> M (Php.Session World) B) (w : World) :
  bind (Php.Session World) (Php.readline World prompt) k (w, [])
  = mkRun (value (k None (w, []))) (final (k None (w, [])))
          (ConsoleLog prompt :: trace (k None (w, []))).
Proof. reflexivity. Qed.




Lemma Php_rounds_input_end (n : nat) (w : World) :
  let run := Php.rounds json_encode World curl loose_eq checker n (w, []) in
  value run = Return None /\ final run = (w, []) /\
  fetch_calls (trace run) = [] /\ length (trace run) = 5 * n.
Proof.
  induction n as [|n IH]; [repeat split|].
  cbv zeta in *. cbn [Php.rounds].
  assert (Hr : Php.round json_encode World curl loose_eq checker (w, [])
               = mkRun (Return None) (w, [])
                   [ConsoleLog (Php.newline ++ "1. Check single number" ++ Php.newline);
                    ConsoleLog ("2. Check multiple numbers" ++ Php.newline);
                    ConsoleLog ("3. Exit" ++ Php.newline);
                    ConsoleLog "Choose an option (1-3): ";
                    ConsoleLog ("Invalid choice. Please enter 1, 2, or 3." ++ Php.newline)])
    by reflexivity.
  unfold bind. rewrite Hr. cbn [value final trace].
  destruct IH as (Hv & Hf & Hc & Hl).
  rewrite Hv, Hf. cbn [app fetch_calls length]. rewrite Hc, Hl.
  repeat split. lia.
Qed.

End PhpInteractive.

(** PHP interactive mode at the end of the input: once the key has been
    read and no line is left, no number of rounds brings the loop to an
    exit; each round prints the menu, the prompt and the complaint about an
    invalid choice, and no request is made. *)
Theorem Php_interactive_input_end (json_encode : ResultObj -> string) (World : Type)
    (curl : World -> HttpRequest -> FetchOutcome * World)
    (loose_eq : string -> string -> bool) (key : string) (n : nat) (w : World) :
  Php.empty (Some key) = false ->
  let run := Php.interactiveCLI json_encode World curl loose_eq n (w, [key]) in
  value run = Return None /\ final run = (w, []) /\
  fetch_calls (trace run) = [] /\ length (trace run) = 3 + 5 * n.
Proof.
  intros Hk. cbv zeta. unfold Php.interactiveCLI.
  rewrite !Php_say_bind, Php_readline_bind. cbn [value final trace]. rewrite Hk.
  destruct (Php_rounds_input_end json_encode World curl loose_eq
              (new_WhatsAppRealtimeChecker (Php.strval (Some key))) n w)
    as (Hv & Hf & Hc & Hl).
  cbn [fetch_calls length]. rewrite Hv, Hf, Hc, Hl. repeat split.
Qed.

(** Seven rounds after the key was the last line typed. *)
Lemma Php_interactive_input_end_example :
  Php.empty (Some "YOUR_API_KEY") = false /\
  let run := Php.interactiveCLI (fun _ => "{}") Script scripted String.eqb 7
               ([], ["YOUR_API_KEY"]) in
  value run = Return None /\ final run = ([], []) /\
  fetch_calls (trace run) = [] /\ length (trace run) = 3 + 5 * 7.
Proof.
  split; [reflexivity|].
  exact (Php_interactive_input_end (fun _ => "{}") Script scripted String.eqb
           "YOUR_API_KEY" 7 [] eq_refl).
Defined.

